(** * Gripper Helper: the request handlers of the Alexa skill

    A shallow embedding of [lambda/index.js] and of the properties the
    specification states about its handlers.

    - JavaScript values are the JSON values the skill receives and builds
      ([JS.value]).  A property read on [undefined] or [null] raises a
      TypeError; the embedding keeps it as [Throw TypeError].
    - Numbers.  The numbers the skill computes are integers or NaN (the
      results of [parseInt], the clamp to 1..100, the countdown of
      renewals), so a number is [Num z] with [z : Z], or [NaN]; fractions,
      infinities and the negative zero are not values of the embedding.
      [Num z] stands for the JavaScript number [z] as long as [z] is a
      safe integer, up to 2^53 in magnitude: there the decrement is exact.
      A number prints in plain decimal digits below 10^21 in magnitude and
      in exponent form from there on, which [number_to_string] does not
      do.  The statements that decrement a number or print a number they
      were given carry these bounds as hypotheses ([safe_budget],
      [prints_plainly]).  The comparisons with the constants of the code
      and the clamp give the same result on the double nearest to a larger
      integer that [parseInt] reads from a string of digits.
    - Strings are the UTF-8 bytes of the JavaScript string.
    - The session attributes are a finite map from attribute names to
      values.
    - A handler is a record of two functions, [canHandle] and [handle], as
      in the source.  [handle] returns the response together with the
      session attributes it leaves behind.
    - [util.js] and [common.js] are required by index.js but are not among
      the sources.  Their functions are parameters of the handlers
      ([Util.Interface], [Common.Interface]). *)

From Stdlib Require Import ZArith String Ascii List Bool Lia DecimalString DecimalPos.
From stdpp Require Import gmap strings.

Import ListNotations.
Open Scope string_scope.

Set Warnings "-register-all".

(** ** JavaScript values *)

Module JS.

Inductive number : Type :=
| NaN
| Num (z : Z).

Inductive value : Type :=
| VUndefined
| VNull
| VBool (b : bool)
| VNumber (n : number)
| VString (s : string)
| VArray (elems : list value)
| VObject (fields : list (string * value)).

(** Exceptions a handler can raise. *)
Inductive exn : Type :=
| TypeError          (* property read on undefined/null, [in] on a primitive *)
| AskSdkError        (* raised by the ask-sdk-core helpers and dispatcher *)
| ValidationError.   (* raised by the directive builder *)

Inductive result (A : Type) : Type :=
| Ok (a : A)
| Throw (e : exn).

Arguments Ok {A} a.
Arguments Throw {A} e.

Definition bind {A B : Type} (m : result A) (k : A -> result B) : result B :=
  match m with
  | Ok a => k a
  | Throw e => Throw e
  end.

Definition number_eqb (a b : number) : bool :=
  match a, b with
  | Num x, Num y => (x =? y)%Z
  | _, _ => false
  end.

(** [a < b] on numbers: false as soon as one side is NaN. *)
Definition lt (a b : number) : bool :=
  match a, b with
  | Num x, Num y => (x <? y)%Z
  | _, _ => false
  end.

Definition Math_min (a b : number) : number :=
  match a, b with
  | Num x, Num y => Num (Z.min x y)
  | _, _ => NaN
  end.

Definition Math_max (a b : number) : number :=
  match a, b with
  | Num x, Num y => Num (Z.max x y)
  | _, _ => NaN
  end.

Definition number_to_string (n : number) : string :=
  match n with
  | NaN => "NaN"
  | Num z => NilZero.string_of_int (Z.to_int z)
  end.

(** ToBoolean. *)
Definition truthy (v : value) : bool :=
  match v with
  | VUndefined | VNull => false
  | VBool b => b
  | VNumber NaN => false
  | VNumber (Num z) => negb (z =? 0)%Z
  | VString s => negb (String.eqb s EmptyString)
  | VArray _ | VObject _ => true
  end.

(** [a || b]. *)
Definition or (a b : value) : value := if truthy a then a else b.

(** [a === b].  Objects and arrays are compared by identity; the operands
    the skill compares come from different places (a request field against
    a session attribute or a literal), so two objects are never the same
    one. *)
Definition strict_eq (a b : value) : bool :=
  match a, b with
  | VUndefined, VUndefined => true
  | VNull, VNull => true
  | VBool x, VBool y => Bool.eqb x y
  | VNumber x, VNumber y => number_eqb x y
  | VString x, VString y => String.eqb x y
  | _, _ => false
  end.

(** ToString.  An array joins its elements with commas, [null] and
    [undefined] elements giving the empty string. *)
Fixpoint to_string (v : value) : string :=
  match v with
  | VUndefined => "undefined"
  | VNull => "null"
  | VBool true => "true"
  | VBool false => "false"
  | VNumber n => number_to_string n
  | VString s => s
  | VArray elems =>
      let elem (x : value) : string :=
        match x with
        | VUndefined | VNull => EmptyString
        | _ => to_string x
        end in
      (fix join (l : list value) : string :=
         match l with
         | [] => EmptyString
         | [x] => elem x
         | x :: rest => elem x +:+ "," +:+ join rest
         end) elems
  | VObject _ => "[object Object]"
  end.

(** *** Parsing numbers *)

Definition is_white_space (c : ascii) : bool :=
  let n := nat_of_ascii c in
  ((9 <=? n)%nat && (n <=? 13)%nat) || (n =? 32)%nat.

(** The white space of more than one byte: U+00A0 in two bytes; U+1680,
    U+2000 to U+200A, U+2028, U+2029, U+202F, U+205F, U+3000 and U+FEFF in
    three. *)
Definition starts_wide_space (c : ascii) : bool :=
  let n := nat_of_ascii c in
  (n =? 194)%nat || (n =? 225)%nat || (n =? 226)%nat || (n =? 227)%nat || (n =? 239)%nat.

Definition two_byte_space (c1 c2 : ascii) : bool :=
  (nat_of_ascii c1 =? 194)%nat && (nat_of_ascii c2 =? 160)%nat.

Definition three_byte_space (c1 c2 c3 : ascii) : bool :=
  let n1 := nat_of_ascii c1 in
  let n2 := nat_of_ascii c2 in
  let n3 := nat_of_ascii c3 in
  ((n1 =? 225)%nat && (n2 =? 154)%nat && (n3 =? 128)%nat)
  || ((n1 =? 226)%nat && (n2 =? 128)%nat
      && (((128 <=? n3)%nat && (n3 <=? 138)%nat)
          || (n3 =? 168)%nat || (n3 =? 169)%nat || (n3 =? 175)%nat))
  || ((n1 =? 226)%nat && (n2 =? 129)%nat && (n3 =? 159)%nat)
  || ((n1 =? 227)%nat && (n2 =? 128)%nat && (n3 =? 128)%nat)
  || ((n1 =? 239)%nat && (n2 =? 187)%nat && (n3 =? 191)%nat).

(** Leading white space and line terminators, of one byte or more. *)
Fixpoint skip_white_space (s : string) : string :=
  match s with
  | EmptyString => s
  | String c1 rest1 =>
      if is_white_space c1 then skip_white_space rest1
      else if starts_wide_space c1 then
        match rest1 with
        | String c2 rest2 =>
            if two_byte_space c1 c2 then skip_white_space rest2
            else
              match rest2 with
              | String c3 rest3 =>
                  if three_byte_space c1 c2 c3 then skip_white_space rest3 else s
              | EmptyString => s
              end
        | EmptyString => s
        end
      else s
  end.

(** Trailing white space: what is left of [s] from the point where only
    white space follows. *)
Fixpoint drop_trailing_white_space (s : string) : string :=
  match s with
  | EmptyString => EmptyString
  | String c rest =>
      if String.eqb (skip_white_space s) EmptyString then EmptyString
      else String c (drop_trailing_white_space rest)
  end.

(** The value of a character as a digit (0-9, a-z, A-Z). *)
Definition digit_value (c : ascii) : option Z :=
  let n := Z.of_nat (nat_of_ascii c) in
  if ((48 <=? n) && (n <=? 57))%Z then Some (n - 48)%Z
  else if ((97 <=? n) && (n <=? 122))%Z then Some (n - 87)%Z
  else if ((65 <=? n) && (n <=? 90))%Z then Some (n - 55)%Z
  else None.

(** The longest prefix of digits of the radix; [acc] is [None] until a
    digit has been read. *)
Fixpoint parse_digits (radix : Z) (s : string) (acc : option Z) : option Z :=
  match s with
  | String c rest =>
      match digit_value c with
      | Some d =>
          if (d <? radix)%Z
          then parse_digits radix rest (Some (radix * default 0%Z acc + d)%Z)
          else acc
      | None => acc
      end
  | EmptyString => acc
  end.

Definition split_sign (s : string) : Z * string :=
  match s with
  | String "-" rest => ((-1)%Z, rest)
  | String "+" rest => (1%Z, rest)
  | _ => (1%Z, s)
  end.

(** [parseInt(s)] without a radix: leading white space, a sign, a [0x]
    prefix for radix 16, then the longest run of digits; NaN when there is
    no digit. *)
Definition parseInt_string (s : string) : number :=
  let '(sign, s2) := split_sign (skip_white_space s) in
  let '(radix, s3) :=
    match s2 with
    | String "0" (String "x" rest) | String "0" (String "X" rest) => (16%Z, rest)
    | _ => (10%Z, s2)
    end in
  match parse_digits radix s3 None with
  | Some z => Num (sign * z)
  | None => NaN
  end.

(** [parseInt(v)] applies ToString to its argument first. *)
Definition parseInt (v : value) : number := parseInt_string (to_string v).

(** All of [s] as digits of the radix; [None] on any other character or on
    the empty string. *)
Fixpoint parse_all_digits (radix : Z) (s : string) (acc : option Z) : option Z :=
  match s with
  | String c rest =>
      match digit_value c with
      | Some d =>
          if (d <? radix)%Z
          then parse_all_digits radix rest (Some (radix * default 0%Z acc + d)%Z)
          else None
      | None => None
      end
  | EmptyString => acc
  end.

(** ToNumber on a string, for the integer literals: white space trimmed,
    the empty string is 0, a signed decimal integer, or an unsigned [0x],
    [0o], [0b] literal.  A literal with a fraction, an exponent or
    [Infinity] denotes a number outside the integers of this embedding
    and is not distinguished from a string that is no number. *)
Definition string_to_number (s : string) : number :=
  let t := drop_trailing_white_space (skip_white_space s) in
  let of_digits (radix : Z) (sign : Z) (body : string) : number :=
    match parse_all_digits radix body None with
    | Some z => Num (sign * z)
    | None => NaN
    end in
  match t with
  | EmptyString => Num 0
  | String "0" (String "x" body) | String "0" (String "X" body) => of_digits 16%Z 1%Z body
  | String "0" (String "o" body) | String "0" (String "O" body) => of_digits 8%Z 1%Z body
  | String "0" (String "b" body) | String "0" (String "B" body) => of_digits 2%Z 1%Z body
  | _ => let '(sign, body) := split_sign t in of_digits 10%Z sign body
  end.

(** ToNumber. *)
Definition to_number (v : value) : number :=
  match v with
  | VUndefined => NaN
  | VNull => Num 0
  | VBool true => Num 1
  | VBool false => Num 0
  | VNumber n => n
  | VString s => string_to_number s
  | VArray _ | VObject _ => string_to_number (to_string v)
  end.

(** *** Property access *)

Fixpoint assoc (k : string) (fields : list (string * value)) : option value :=
  match fields with
  | [] => None
  | (k', v) :: rest => if String.eqb k k' then Some v else assoc k rest
  end.

Definition index_key (i : nat) : string := NilZero.string_of_uint (Nat.to_uint i).

Definition string_at (s : string) (i : nat) : value :=
  match String.get i s with
  | Some c => VString (String c EmptyString)
  | None => VUndefined
  end.

(** [v.k] for the property names the skill reads: none of them is an
    array index or a property that objects inherit.  Reading a property of
    [undefined] or [null] raises a TypeError; a primitive has none of these
    properties, except the length of a string. *)
Definition get (v : value) (k : string) : result value :=
  match v with
  | VUndefined | VNull => Throw TypeError
  | VObject fields => Ok (default VUndefined (assoc k fields))
  | VArray elems =>
      if String.eqb k "length" then Ok (VNumber (Num (Z.of_nat (length elems))))
      else Ok VUndefined
  | VString s =>
      if String.eqb k "length" then Ok (VNumber (Num (Z.of_nat (String.length s))))
      else Ok VUndefined
  | VBool _ | VNumber _ => Ok VUndefined
  end.

(** [v[i]] for a literal index [i]. *)
Definition get_index (v : value) (i : nat) : result value :=
  match v with
  | VUndefined | VNull => Throw TypeError
  | VObject fields => Ok (default VUndefined (assoc (index_key i) fields))
  | VArray elems => Ok (nth i elems VUndefined)
  | VString s => Ok (string_at s i)
  | VBool _ | VNumber _ => Ok VUndefined
  end.

(** [k in v]: a TypeError unless [v] is an object or an array. *)
Definition has_property (k : string) (v : value) : result bool :=
  match v with
  | VObject fields => Ok (bool_decide (is_Some (assoc k fields)))
  | VArray elems =>
      Ok (String.eqb k "length"
          || existsb (fun i => String.eqb k (index_key i)) (seq 0 (length elems)))
  | _ => Throw TypeError
  end.

End JS.

Import JS.

Notation "x <- m ;; k" := (JS.bind m (fun x => k))
  (at level 100, m at next level, right associativity).

Notation "x |> f" := (f x) (at level 50, left associativity, only parsing).

(** ** The request envelope and the response builder (ask-sdk-core) *)

Record Intent : Type := {
  name : string;
  (* slot name |-> the [value] field of the slot, [VUndefined] when the
     slot is there but was not filled *)
  slots : list (string * value)
}.

Record Request : Type := {
  type : string;
  requestId : string;
  intent : Intent;          (* read for an IntentRequest only *)
  token : value;            (* CustomInterfaceController.* *)
  events : value            (* CustomInterfaceController.EventsReceived *)
}.

Record Context : Type := { System : value }.

Record RequestEnvelope : Type := {
  request : Request;
  context : Context
}.

(** [handlerInput]: the envelope and, behind [attributesManager], the
    session attribute bag. *)
Record HandlerInput : Type := {
  requestEnvelope : RequestEnvelope;
  sessionAttributes : gmap string value
}.

Module Alexa.

Definition getRequestType (env : RequestEnvelope) : string :=
  type (request env).

(** The SDK accessors for intents raise when the request is not an
    IntentRequest. *)
Definition getIntentName (env : RequestEnvelope) : result string :=
  if String.eqb (getRequestType env) "IntentRequest"
  then Ok (name (intent (request env)))
  else Throw AskSdkError.

(** [getSlotValue]: the slot's value, [null] when the intent has no such
    slot. *)
Definition getSlotValue (env : RequestEnvelope) (slotName : string) : result value :=
  if String.eqb (getRequestType env) "IntentRequest"
  then Ok (default VNull (assoc slotName (slots (intent (request env)))))
  else Throw AskSdkError.

End Alexa.

Record OutputSpeech : Type := {
  ssml : string;                 (* the text given to [speak] *)
  playBehavior : option string
}.

Record Response : Type := {
  outputSpeech : option OutputSpeech;
  directives : list value;
  shouldEndSession : option bool   (* [None]: not set by the handler *)
}.

(** [handlerInput.responseBuilder] and its chained calls. *)
Definition responseBuilder : Response :=
  {| outputSpeech := None; directives := []; shouldEndSession := None |}.

Definition speak (speechOutput : string) (behavior : option string) (r : Response) : Response :=
  {| outputSpeech := Some {| ssml := speechOutput; playBehavior := behavior |};
     directives := directives r;
     shouldEndSession := shouldEndSession r |}.

Definition addDirective (directive : value) (r : Response) : Response :=
  {| outputSpeech := outputSpeech r;
     directives := directives r ++ [directive];
     shouldEndSession := shouldEndSession r |}.

Definition withShouldEndSession (b : bool) (r : Response) : Response :=
  {| outputSpeech := outputSpeech r;
     directives := directives r;
     shouldEndSession := Some b |}.

Definition getResponse (r : Response) : Response := r.

(** A handler object: [canHandle] and [handle].  [handle] returns the
    response and the session attributes after the call. *)
Record RequestHandler : Type := {
  canHandle : HandlerInput -> result bool;
  handle : HandlerInput -> result (Response * gmap string value)
}.

(** ** util.js *)

Module Util.

(** [util.js] is not among the sources.  Its directive builders and the
    gadget discovery call are taken as parameters: the handlers are
    verified for every implementation of them, failing ones included. *)
Class Interface : Type := {
  getConnectedEndpoints : value -> value -> result value;
  build : value -> string -> string -> value -> result value;
  buildStartEventHandler : value -> Z -> value -> result value
}.

(** Modelled from the spec: [Util.putSessionAttribute], whose source file
    util.js is missing.  Section 4.1 (Session Store): [set(key, value)]
    mutates the session-scoped attribute bag and has no error condition. *)
Definition putSessionAttribute (attributes : gmap string value) (key : string) (v : value)
  : gmap string value :=
  <[key := v]> attributes.

End Util.

(** [attributesManager.getSessionAttributes().key] *)
Definition getSessionAttribute (attributes : gmap string value) (key : string) : value :=
  default VUndefined (attributes !! key).

(** ** lambda/index.js *)

Definition double_quote : string := String (ascii_of_nat 34) EmptyString.

(** The audio tag to include background music *)
Definition BG_MUSIC : string :=
  "<audio src=" +:+ double_quote
  +:+ "soundbank://soundlibrary/ui/gameshow/amzn_ui_sfx_gameshow_waiting_loop_30s_01"
  +:+ double_quote +:+ "/>".

(** The namespace of the custom directive to be sent by this skill *)
Definition NAMESPACE : string := "Custom.Mindstorms.Gadget".

(** The name of the custom directive to be sent this skill *)
Definition NAME_CONTROL : string := "control".

Section Handlers.

Context {U : Util.Interface}.

(** [getRequestType(env) === 'IntentRequest' && getIntentName(env) === intentName] *)
Definition isIntentRequest (handlerInput : HandlerInput) (intentName : string) : result bool :=
  if String.eqb (Alexa.getRequestType (requestEnvelope handlerInput)) "IntentRequest" then
    n <- Alexa.getIntentName (requestEnvelope handlerInput);;
    Ok (String.eqb n intentName)
  else Ok false.

Definition LaunchRequestHandler : RequestHandler := {|
  canHandle handlerInput :=
    Ok (String.eqb (Alexa.getRequestType (requestEnvelope handlerInput)) "LaunchRequest");
  handle handlerInput :=
    let envelope := requestEnvelope handlerInput in
    let attributes := sessionAttributes handlerInput in
    apiEndpoint <- get (System (context envelope)) "apiEndpoint";;
    apiAccessToken <- get (System (context envelope)) "apiAccessToken";;
    apiResponse <- Util.getConnectedEndpoints apiEndpoint apiAccessToken;;
    endpoints <- get apiResponse "endpoints";;
    len <- get (or endpoints (VArray [])) "length";;
    if strict_eq len (VNumber (Num 0)) then
      Ok (responseBuilder
          |> speak "I couldn't find an EV3 Brick connected to this Echo device. Please check to make sure your EV3 Brick is connected, and try again." None
          |> getResponse,
          attributes)
    else
      (* Store the gadget endpointId to be used in this skill session *)
      first <- get_index endpoints 0;;
      id <- get first "endpointId";;
      let endpointId := or id (VArray []) in
      let attributes := Util.putSessionAttribute attributes "endpointId" endpointId in
      (* Set skill duration to 5 minutes (ten 30-seconds interval) *)
      let attributes := Util.putSessionAttribute attributes "duration" (VNumber (Num 10)) in
      (* Set the token to track the event handler *)
      let token := VString (requestId (request (requestEnvelope handlerInput))) in
      let attributes := Util.putSessionAttribute attributes "token" token in
      let speechOutput := "Welcome, Gripper Helper is here for your command" in
      directive <- Util.buildStartEventHandler token 60000%Z (VObject []);;
      Ok (responseBuilder
          |> speak (speechOutput +:+ BG_MUSIC) None
          |> addDirective directive
          |> getResponse,
          attributes)
|}.

(** The directive of the ComeIntent handler is commented out in the
    source: the handler only speaks. *)
Definition ComeIntentHandler : RequestHandler := {|
  canHandle handlerInput := isIntentRequest handlerInput "ComeIntent";
  handle handlerInput :=
    Ok (responseBuilder |> speak "Hello, finally hit" None |> getResponse,
        sessionAttributes handlerInput)
|}.

Definition BringIntentHandler : RequestHandler := {|
  canHandle handlerInput := isIntentRequest handlerInput "BringIntent";
  handle handlerInput :=
    let attributes := sessionAttributes handlerInput in
    command <- Alexa.getSlotValue (requestEnvelope handlerInput) "Bring";;
    if negb (truthy command) then
      Ok (responseBuilder
          |> speak "Can you repeat that?" None
          |> withShouldEndSession false
          |> getResponse,
          attributes)
    else
      let endpointId := or (getSessionAttribute attributes "endpointId") (VArray []) in
      let speed := or (getSessionAttribute attributes "speed") (VString "50") in
      (* Construct the directive with the payload containing the move parameters *)
      directive <- Util.build endpointId NAMESPACE NAME_CONTROL
        (VObject [("type", VString "bring"); ("command", command); ("speed", speed)]);;
      let speechOutput := "bring me stuff" in
      Ok (responseBuilder
          |> speak (speechOutput +:+ BG_MUSIC) None
          |> addDirective directive
          |> getResponse,
          attributes)
|}.

Definition TakeIntentHandler : RequestHandler := {|
  canHandle handlerInput := isIntentRequest handlerInput "TakeIntent";
  handle handlerInput :=
    let attributes := sessionAttributes handlerInput in
    command <- Alexa.getSlotValue (requestEnvelope handlerInput) "Take";;
    if negb (truthy command) then
      Ok (responseBuilder
          |> speak "Can you repeat that?" None
          |> withShouldEndSession false
          |> getResponse,
          attributes)
    else
      let endpointId := or (getSessionAttribute attributes "endpointId") (VArray []) in
      let speed := or (getSessionAttribute attributes "speed") (VString "50") in
      directive <- Util.build endpointId NAMESPACE NAME_CONTROL
        (VObject [("type", VString "take"); ("command", command); ("speed", speed)]);;
      let speechOutput := "take this" in
      Ok (responseBuilder
          |> speak (speechOutput +:+ BG_MUSIC) None
          |> addDirective directive
          |> getResponse,
          attributes)
|}.

(** Add the speed value to the session attribute. *)
Definition SetSpeedIntentHandler : RequestHandler := {|
  canHandle handlerInput := isIntentRequest handlerInput "SetSpeedIntent";
  handle handlerInput :=
    let attributes := sessionAttributes handlerInput in
    (* Bound speed to (1-100) *)
    speed <- Alexa.getSlotValue (requestEnvelope handlerInput) "Speed";;
    let speed := VNumber (Math_max (Num 1) (Math_min (Num 100) (parseInt speed))) in
    let attributes := Util.putSessionAttribute attributes "speed" speed in
    let speechOutput := "speed set to " +:+ to_string speed +:+ " percent." in
    Ok (responseBuilder |> speak (speechOutput +:+ BG_MUSIC) None |> getResponse,
        attributes)
|}.

Definition MoveIntentHandler : RequestHandler := {|
  canHandle handlerInput := isIntentRequest handlerInput "MoveIntent";
  handle handlerInput :=
    let envelope := requestEnvelope handlerInput in
    direction <- Alexa.getSlotValue envelope "Direction";;
    (* Duration is optional, use default if not available *)
    d <- Alexa.getSlotValue envelope "Duration";;
    let duration := or d (VString "2") in
    (* Get data from session attribute *)
    let attributes := sessionAttributes handlerInput in
    let speed := or (getSessionAttribute attributes "speed") (VString "50") in
    let endpointId := or (getSessionAttribute attributes "endpointId") (VArray []) in
    directive <- Util.build endpointId NAMESPACE NAME_CONTROL
      (VObject [("type", VString "move"); ("direction", direction);
                ("duration", duration); ("speed", speed)]);;
    let speechOutput :=
      if strict_eq direction (VString "brake")
      then "Applying brake"
      else to_string direction +:+ " " +:+ to_string duration +:+ " seconds at "
           +:+ to_string speed +:+ " percent speed" in
    Ok (responseBuilder
        |> speak (speechOutput +:+ BG_MUSIC) None
        |> addDirective directive
        |> getResponse,
        attributes)
|}.

Definition SetCommandIntentHandler : RequestHandler := {|
  canHandle handlerInput := isIntentRequest handlerInput "SetCommandIntent";
  handle handlerInput :=
    let attributes := sessionAttributes handlerInput in
    command <- Alexa.getSlotValue (requestEnvelope handlerInput) "Command";;
    if negb (truthy command) then
      Ok (responseBuilder
          |> speak "Can you repeat that?" None
          |> withShouldEndSession false
          |> getResponse,
          attributes)
    else
      let endpointId := or (getSessionAttribute attributes "endpointId") (VArray []) in
      let speed := or (getSessionAttribute attributes "speed") (VString "50") in
      directive <- Util.build endpointId NAMESPACE NAME_CONTROL
        (VObject [("type", VString "command"); ("command", command); ("speed", speed)]);;
      let speechOutput :=
        if strict_eq command (VString "sentry") || strict_eq command (VString "sentry mode")
        then EmptyString
        else "command " +:+ to_string command +:+ " activated" in
      Ok (responseBuilder
          |> speak (speechOutput +:+ BG_MUSIC) None
          |> addDirective directive
          |> getResponse,
          attributes)
|}.

Definition EventsReceivedRequestHandler : RequestHandler := {|
  (* Checks for a valid token and endpoint. *)
  canHandle handlerInput :=
    let req := request (requestEnvelope handlerInput) in
    if negb (String.eqb (type req) "CustomInterfaceController.EventsReceived") then Ok false
    else
      let attributes := sessionAttributes handlerInput in
      customEvent <- get_index (events req) 0;;
      (* Validate event token *)
      if negb (strict_eq (getSessionAttribute attributes "token") (token req)) then Ok false
      else
        (* Validate endpoint *)
        endpoint <- get customEvent "endpoint";;
        requestEndpoint <- get endpoint "endpointId";;
        if negb (strict_eq requestEndpoint (getSessionAttribute attributes "endpointId"))
        then Ok false
        else Ok true;
  handle handlerInput :=
    let attributes := sessionAttributes handlerInput in
    customEvent <- get_index (events (request (requestEnvelope handlerInput))) 0;;
    payload <- get customEvent "payload";;
    header <- get customEvent "header";;
    name <- get header "name";;
    (* the return that ends the function: [speechOutput + BG_MUSIC] *)
    let respond (speechOutput : value) :=
      Ok (responseBuilder
          |> speak (to_string speechOutput +:+ BG_MUSIC) (Some "REPLACE_ALL")
          |> getResponse,
          attributes) in
    if strict_eq name (VString "Proximity") then
      d <- get payload "distance";;
      let distance := parseInt d in
      if lt distance (Num 10) then
        let speechOutput := "Intruder detected! What would you like to do?" in
        Ok (responseBuilder
            |> speak speechOutput (Some "REPLACE_ALL")
            |> withShouldEndSession false
            |> getResponse,
            attributes)
      else respond VUndefined
    else if strict_eq name (VString "Sentry") then
      fire <- has_property "fire" payload;;
      if fire then respond (VString "Threat eliminated")
      else
        move <- has_property "move" payload;;
        if move then respond (VString "I cowarded to the threats, and now gone in hiding")
        else respond VUndefined
    else if strict_eq name (VString "Speech") then
      speechOut <- get payload "speechOut";;
      respond speechOut
    else respond (VString "Event not recognized. Awaiting new command.")
|}.

Definition ExpiredRequestHandler : RequestHandler := {|
  canHandle handlerInput :=
    Ok (String.eqb (Alexa.getRequestType (requestEnvelope handlerInput))
                   "CustomInterfaceController.Expired");
  handle handlerInput :=
    (* Set the token to track the event handler *)
    let token := VString (requestId (request (requestEnvelope handlerInput))) in
    let attributes := Util.putSessionAttribute (sessionAttributes handlerInput) "token" token in
    let duration := or (getSessionAttribute attributes "duration") (VNumber (Num 0)) in
    if lt (Num 0) (to_number duration) then
      (* --duration: the budget is taken as a safe integer, on which the
         decrement is exact *)
      let duration :=
        VNumber (match to_number duration with Num z => Num (z - 1) | NaN => NaN end) in
      let attributes := Util.putSessionAttribute attributes "duration" duration in
      (* Extends skill session *)
      let speechOutput := to_string duration +:+ " minutes remaining." in
      directive <- Util.buildStartEventHandler token 60000%Z (VObject []);;
      Ok (responseBuilder
          |> addDirective directive
          |> speak (speechOutput +:+ BG_MUSIC) None
          |> getResponse,
          attributes)
    else
      (* End skill session *)
      Ok (responseBuilder
          |> speak "Skill duration expired. Goodbye." None
          |> withShouldEndSession true
          |> getResponse,
          attributes)
|}.

End Handlers.

(** ** common.js and the dispatcher *)

Module Common.

(** [common.js] is not among the sources: the four request handlers that
    index.js registers from it are parameters. *)
Class Interface : Type := {
  HelpIntentHandler : RequestHandler;
  CancelAndStopIntentHandler : RequestHandler;
  SessionEndedRequestHandler : RequestHandler;
  IntentReflectorHandler : RequestHandler
}.

End Common.

Section Dispatcher.

Context {U : Util.Interface} {C : Common.Interface}.

(** The handlers index.js defines and registers, in registration order.
    SetSpeedIntentHandler, MoveIntentHandler and SetCommandIntentHandler
    are defined but not registered. *)
Definition ownHandlers : list RequestHandler :=
  [ LaunchRequestHandler;
    ComeIntentHandler;
    TakeIntentHandler;
    BringIntentHandler;
    EventsReceivedRequestHandler;
    ExpiredRequestHandler ].

Definition commonHandlers : list RequestHandler :=
  [ Common.HelpIntentHandler;
    Common.CancelAndStopIntentHandler;
    Common.SessionEndedRequestHandler;
    Common.IntentReflectorHandler ].

(** [addRequestHandlers(...)]: the order matters, they are processed top
    to bottom. *)
Definition requestHandlers : list RequestHandler := ownHandlers ++ commonHandlers.

(** The SDK dispatcher over the registered request handlers (section 4.3
    of the specification): the predicates are evaluated in order and the
    first handler whose predicate holds answers; with no handler left the
    SDK raises.  The request interceptor and the error handler that
    index.js also registers from common.js wrap this function and are not
    part of it. *)
Fixpoint dispatch (handlers : list RequestHandler) (handlerInput : HandlerInput)
  : result (Response * gmap string value) :=
  match handlers with
  | [] => Throw AskSdkError
  | h :: rest =>
      matched <- canHandle h handlerInput;;
      if matched then handle h handlerInput else dispatch rest handlerInput
  end.

Definition handler (handlerInput : HandlerInput) : result (Response * gmap string value) :=
  dispatch requestHandlers handlerInput.

End Dispatcher.

(** ** Implementations of util.js and common.js after the specification

    The theorems below hold for every implementation of [Util.Interface]
    and [Common.Interface].  To run the handlers on concrete requests, one
    implementation of each is written down after the specification. *)

Definition is_empty_endpoint (endpointId : value) : bool :=
  match endpointId with
  | VUndefined | VNull | VArray [] => true
  | VString s => String.eqb s EmptyString
  | _ => false
  end.

(** Modelled from the spec: the directive builders and the discovery call
    of util.js, which is missing.  Section 3: a Directive is
    { targetEndpoint, namespace, name, payload }.  Section 4.2: building a
    control directive fails with ValidationError if endpointId is empty;
    the timer-start directive is built from (token, durationMs,
    extraConfig).  Section 6: discovery returns a sequence of
    { endpointId }, here the fixed answer [discovered]. *)
Definition Util_spec (discovered : value) : Util.Interface := {|
  Util.getConnectedEndpoints _ _ := Ok discovered;
  Util.build endpointId namespace name payload :=
    if is_empty_endpoint endpointId then Throw ValidationError
    else Ok (VObject [("targetEndpoint", endpointId);
                      ("namespace", VString namespace);
                      ("name", VString name);
                      ("payload", payload)]);
  Util.buildStartEventHandler token durationMs extraConfig :=
    Ok (VObject [("token", token);
                 ("durationMs", VNumber (Num durationMs));
                 ("extraConfig", extraConfig)])
|}.

(** Modelled from the spec: an implementation of common.js, which is
    missing, to run the dispatcher on concrete requests; no statement
    about index.js depends on it.  The help and cancel/stop handlers answer
    their intents and the session-ended handler its request kind
    (section 6); the specification leaves their texts out of scope, so they
    answer with an empty response here.  The reflector answers the intent
    requests that reach it and echoes the intent: index.js registers it
    last "so it doesn't override your custom intent handlers". *)
Definition Common_spec : Common.Interface := {|
  Common.HelpIntentHandler := {|
    canHandle handlerInput := isIntentRequest handlerInput "AMAZON.HelpIntent";
    handle handlerInput :=
      Ok (responseBuilder |> getResponse, sessionAttributes handlerInput) |};
  Common.CancelAndStopIntentHandler := {|
    canHandle handlerInput :=
      cancel <- isIntentRequest handlerInput "AMAZON.CancelIntent";;
      stop <- isIntentRequest handlerInput "AMAZON.StopIntent";;
      Ok (cancel || stop);
    handle handlerInput :=
      Ok (responseBuilder |> getResponse, sessionAttributes handlerInput) |};
  Common.SessionEndedRequestHandler := {|
    canHandle handlerInput :=
      Ok (String.eqb (Alexa.getRequestType (requestEnvelope handlerInput))
                     "SessionEndedRequest");
    handle handlerInput :=
      Ok (responseBuilder |> getResponse, sessionAttributes handlerInput) |};
  Common.IntentReflectorHandler := {|
    canHandle handlerInput :=
      Ok (String.eqb (Alexa.getRequestType (requestEnvelope handlerInput)) "IntentRequest");
    handle handlerInput :=
      intentName <- Alexa.getIntentName (requestEnvelope handlerInput);;
      Ok (responseBuilder |> speak intentName None |> getResponse,
          sessionAttributes handlerInput) |}
|}.

(** ** Notions used in the statements *)

Definition with_session (env : RequestEnvelope) (attributes : gmap string value) : HandlerInput :=
  {| requestEnvelope := env; sessionAttributes := attributes |}.

Definition is_events_request (handlerInput : HandlerInput) : Prop :=
  type (request (requestEnvelope handlerInput)) = "CustomInterfaceController.EventsReceived".



Definition nullish (v : value) : bool :=
  match v with
  | VUndefined | VNull => true
  | _ => false
  end.

(** The shape the predicate of the events handler relies on: an
    EventsReceived request has a first event to read, and when its token
    is the session's, that event has an endpoint. *)
Definition events_well_formed (handlerInput : HandlerInput) : Prop :=
  is_events_request handlerInput ->
  exists customEvent,
    get_index (events (request (requestEnvelope handlerInput))) 0 = Ok customEvent /\
    (strict_eq (getSessionAttribute (sessionAttributes handlerInput) "token")
               (token (request (requestEnvelope handlerInput))) = true ->
     exists endpoint,
       get customEvent "endpoint" = Ok endpoint /\ nullish endpoint = false).

(** The value of a slot of an intent request. *)
Definition slot_value (handlerInput : HandlerInput) (slotName : string) : value :=
  default VNull (assoc slotName (slots (intent (request (requestEnvelope handlerInput))))).

(** Two envelopes that carry the same intent: the same name and the same
    slots.  Request id, token, events and context may differ. *)
Definition same_intent (first second : RequestEnvelope) : Prop :=
  type (request first) = type (request second) /\
  intent (request first) = intent (request second).

(** The handlers of index.js that send a command to the gadget. *)
Definition commandHandlers {U : Util.Interface} : list RequestHandler :=
  [ MoveIntentHandler; ComeIntentHandler; BringIntentHandler; TakeIntentHandler;
    SetCommandIntentHandler ].

(** Every handler index.js defines, registered or not. *)
Definition definedHandlers {U : Util.Interface} : list RequestHandler :=
  [ LaunchRequestHandler; ComeIntentHandler; BringIntentHandler; TakeIntentHandler;
    SetSpeedIntentHandler; MoveIntentHandler; SetCommandIntentHandler;
    EventsReceivedRequestHandler; ExpiredRequestHandler ].

(** The payload of the directive of a handler that sends a command
    string. *)
Definition command_payload (discriminator : string) (command speed : value) : value :=
  VObject [("type", VString discriminator); ("command", command); ("speed", speed)].

(** The answer of the handlers that check their slot, when it is missing. *)
Definition reprompt : Response :=
  responseBuilder |> speak "Can you repeat that?" None |> withShouldEndSession false
  |> getResponse.

(** The response of the events handler when no branch assigned
    [speechOutput]. *)
Definition undefined_speech : Response :=
  responseBuilder |> speak ("undefined" +:+ BG_MUSIC) (Some "REPLACE_ALL") |> getResponse.

(** ** Notions used for the handlers as a whole *)

(** The token and endpoint checks of the events predicate, for the first
    event of the request. *)
Definition correlated (handlerInput : HandlerInput) : Prop :=
  exists customEvent endpoint requestEndpoint,
    get_index (events (request (requestEnvelope handlerInput))) 0 = Ok customEvent /\
    strict_eq (getSessionAttribute (sessionAttributes handlerInput) "token")
              (token (request (requestEnvelope handlerInput))) = true /\
    get customEvent "endpoint" = Ok endpoint /\
    get endpoint "endpointId" = Ok requestEndpoint /\
    strict_eq requestEndpoint
              (getSessionAttribute (sessionAttributes handlerInput) "endpointId") = true.

(** The handlers that start a timer: they store the request id as token. *)
Definition timerHandlers {U : Util.Interface} : list RequestHandler :=
  [ LaunchRequestHandler; ExpiredRequestHandler ].

(** The answer of the events handler to a close Proximity reading. *)
Definition intruder_alert : Response :=
  responseBuilder
  |> speak "Intruder detected! What would you like to do?" (Some "REPLACE_ALL")
  |> withShouldEndSession false
  |> getResponse.

(** The answer of the expiry handler when no renewal is left. *)
Definition goodbye : Response :=
  responseBuilder
  |> speak "Skill duration expired. Goodbye." None
  |> withShouldEndSession true
  |> getResponse.

(** The expiry requests [envs], answered one after the other, each on the
    session the one before left; the responses come in the same order. *)
Fixpoint expirations {U : Util.Interface} (envs : list RequestEnvelope)
    (attributes : gmap string value) : result (list Response * gmap string value) :=
  match envs with
  | [] => Ok ([], attributes)
  | env :: rest =>
      first <- handle ExpiredRequestHandler (with_session env attributes);;
      others <- expirations rest (snd first);;
      Ok (fst first :: fst others, snd others)
  end.

(** A response that renews the timer: one directive, the session not
    ended. *)
Definition renews (r : Response) : Prop :=
  length (directives r) = 1%nat /\ shouldEndSession r = None.

(** What a predicate of index.js looks at: the request type and, for an
    intent request, the intent name. *)
Definition signature (handlerInput : HandlerInput) : string * string :=
  let req := request (requestEnvelope handlerInput) in
  (type req, if String.eqb (type req) "IntentRequest" then name (intent req) else EmptyString).

(** The signature each handler of [definedHandlers] accepts, in the same
    order. *)
Definition signatures : list (string * string) :=
  [ ("LaunchRequest", EmptyString);
    ("IntentRequest", "ComeIntent");
    ("IntentRequest", "BringIntent");
    ("IntentRequest", "TakeIntent");
    ("IntentRequest", "SetSpeedIntent");
    ("IntentRequest", "MoveIntent");
    ("IntentRequest", "SetCommandIntent");
    ("CustomInterfaceController.EventsReceived", EmptyString);
    ("CustomInterfaceController.Expired", EmptyString) ].

(** The handlers index.js defines but does not register. *)
Definition unregisteredHandlers {U : Util.Interface} : list RequestHandler :=
  [ SetSpeedIntentHandler; MoveIntentHandler; SetCommandIntentHandler ].

(** The budget of renewals is a number between 0 and 10, or not set. *)
Definition budget_in_range (attributes : gmap string value) : Prop :=
  match attributes !! "duration" with
  | None => True
  | Some v => exists n, v = VNumber (Num n) /\ (0 <= n <= 10)%Z
  end.

(** The four session attributes index.js writes. *)
Definition writtenAttributes : list string := ["endpointId"; "duration"; "token"; "speed"].

(** The number a run of decimal digits denotes, read from the left onto
    the accumulator [acc]. *)
Fixpoint uint_value (d : Decimal.uint) (acc : Z) : Z :=
  match d with
  | Decimal.Nil => acc
  | Decimal.D0 l => uint_value l (10 * acc + 0)
  | Decimal.D1 l => uint_value l (10 * acc + 1)
  | Decimal.D2 l => uint_value l (10 * acc + 2)
  | Decimal.D3 l => uint_value l (10 * acc + 3)
  | Decimal.D4 l => uint_value l (10 * acc + 4)
  | Decimal.D5 l => uint_value l (10 * acc + 5)
  | Decimal.D6 l => uint_value l (10 * acc + 6)
  | Decimal.D7 l => uint_value l (10 * acc + 7)
  | Decimal.D8 l => uint_value l (10 * acc + 8)
  | Decimal.D9 l => uint_value l (10 * acc + 9)
  end.

(** The speed a SetSpeedIntent makes the command handlers send: the
    clamped integer, or the default "50" when the slot could not be read. *)
Definition speed_sent (raw : value) : value :=
  match parseInt raw with
  | Num z => VNumber (Num (Z.max 1 (Z.min 100 z)))
  | NaN => VString "50"
  end.

(** The response of a call, without the session. *)
Definition response_of (outcome : result (Response * gmap string value)) : result Response :=
  match outcome with
  | Ok (r, _) => Ok r
  | Throw e => Throw e
  end.

(** A budget of renewals on which the decrement of the code, which works
    on doubles, is exact. *)
Definition safe_budget (n : Z) : Prop := (n <= 2 ^ 53)%Z.

(** A primitive value that JavaScript prints the way [to_string] does:
    neither an object nor an array, and a number only below 10^21 in
    magnitude, where it is printed in plain decimal digits. *)
Definition prints_plainly (v : value) : Prop :=
  match v with
  | VArray _ | VObject _ => False
  | VNumber (Num z) => (Z.abs z < 10 ^ 21)%Z
  | _ => True
  end.

(** ** Requests and sessions used as examples *)

Definition no_intent : Intent := {| name := EmptyString; slots := [] |}.

Definition system : Context :=
  {| System := VObject [("apiEndpoint", VString "https://api.amazonalexa.com");
                        ("apiAccessToken", VString "access-token")] |}.

Definition intent_request (id intentName : string) (slotValues : list (string * value))
  : RequestEnvelope :=
  {| request := {| type := "IntentRequest"; requestId := id;
                   intent := {| name := intentName; slots := slotValues |};
                   token := VUndefined; events := VUndefined |};
     context := system |}.

Definition plain_request (kind id : string) : RequestEnvelope :=
  {| request := {| type := kind; requestId := id; intent := no_intent;
                   token := VUndefined; events := VUndefined |};
     context := system |}.

Definition events_request (id : string) (tok : value) (evs : value) : RequestEnvelope :=
  {| request := {| type := "CustomInterfaceController.EventsReceived"; requestId := id;
                   intent := no_intent; token := tok; events := evs |};
     context := system |}.

(** A gadget event: header name, endpoint id and payload. *)
Definition gadget_event (eventName endpoint : string) (payload : value) : value :=
  VObject [("header", VObject [("namespace", VString NAMESPACE); ("name", VString eventName)]);
           ("endpoint", VObject [("endpointId", VString endpoint)]);
           ("payload", payload)].

(** Answers of the gadget discovery. *)
Definition one_gadget : value :=
  VObject [("endpoints", VArray [VObject [("endpointId", VString "E1")]])].

Definition no_gadget : value := VObject [("endpoints", VArray [])].

(** The first request of a session. *)
Definition launch : HandlerInput :=
  with_session (plain_request "LaunchRequest" "req-1") ∅.

(** The session that launch leaves behind when gadget "E1" is connected. *)
Definition launched : gmap string value :=
  <["token" := VString "req-1"]>
    (<["duration" := VNumber (Num 10)]> (<["endpointId" := VString "E1"]> ∅)).

(** The expiry of a timer, on a session with [budget] renewals left. *)
Definition expiry (budget : Z) : HandlerInput :=
  with_session (plain_request "CustomInterfaceController.Expired" "req-9")
               (<["duration" := VNumber (Num budget)]> launched).

(** A SetSpeedIntent whose Speed slot holds [raw]. *)
Definition speed_request (raw : value) : HandlerInput :=
  with_session (intent_request "req-2" "SetSpeedIntent" [("Speed", raw)]) launched.

(** A MoveIntent whose Direction slot was not filled. *)
Definition move_without_direction : HandlerInput :=
  with_session (intent_request "req-3" "MoveIntent" [("Direction", VUndefined)]) launched.

(** A BringIntent asking for water, in the request [id]. *)
Definition bring_water (id : string) : RequestEnvelope :=
  intent_request id "BringIntent" [("Bring", VString "water")].

Definition come_here (id : string) : RequestEnvelope :=
  intent_request id "ComeIntent" [].

(** An event of gadget "E1" with the token of the running timer. *)
Definition event (eventName : string) (payload : value) : HandlerInput :=
  with_session
    (events_request "req-5" (VString "req-1") (VArray [gadget_event eventName "E1" payload]))
    launched.


(** An EventsReceived request with the token of the running timer and an
    empty events array. *)
Definition empty_events : HandlerInput :=
  with_session (events_request "req-6" (VString "req-1") (VArray [])) launched.

(** An event with the token of the running timer and no endpoint field. *)
Definition event_without_endpoint : HandlerInput :=
  with_session
    (events_request "req-6" (VString "req-1")
       (VArray [VObject [("header", VObject [("name", VString "Proximity")]);
                         ("payload", VObject [("distance", VNumber (Num 5))])]]))
    launched.

(** A discovery answer whose only endpoint has no id. *)
Definition nameless_gadget : value := VObject [("endpoints", VArray [VObject []])].

(** An event of gadget "E1" with the token of the running timer and no
    header. *)
Definition event_without_header : HandlerInput :=
  with_session
    (events_request "req-6" (VString "req-1")
       (VArray [VObject [("endpoint", VObject [("endpointId", VString "E1")]);
                         ("payload", VObject [("distance", VNumber (Num 5))])]]))
    launched.

(** Two expiry requests in a row. *)
Definition two_expiries : list RequestEnvelope :=
  [ plain_request "CustomInterfaceController.Expired" "req-20";
    plain_request "CustomInterfaceController.Expired" "req-21" ].

(** An expiry request that carries a token of its own. *)
Definition expiry_with_token (id : string) (tok : value) : RequestEnvelope :=
  {| request := {| type := "CustomInterfaceController.Expired"; requestId := id;
                   intent := no_intent; token := tok; events := VUndefined |};
     context := system |}.


(** A discovery answer whose only endpoint has the empty string as id. *)
Definition unnamed_gadget : value :=
  VObject [("endpoints", VArray [VObject [("endpointId", VString EmptyString)]])].

(** * Properties *)

(** Decide the comparisons between string literals in the goal. *)
Ltac decide_literals :=
  repeat match goal with
  | |- context [String.eqb ?a ?b] =>
      let v := eval vm_compute in (String.eqb a b) in
      match v with
      | true => idtac
      | false => idtac
      end;
      change (String.eqb a b) with v
  end.

Section StaleEvents.

Context {U : Util.Interface} {C : Common.Interface}.







End StaleEvents.



(** ** Intent requests *)

Lemma isIntentRequest_total (handlerInput : HandlerInput) (intentName : string) :
  exists b, isIntentRequest handlerInput intentName = Ok b.
Proof.
  unfold isIntentRequest, Alexa.getIntentName.
  destruct (String.eqb _ "IntentRequest"); eexists; reflexivity.
Qed.

Lemma isIntentRequest_true (handlerInput : HandlerInput) (intentName : string) :
  isIntentRequest handlerInput intentName = Ok true ->
  type (request (requestEnvelope handlerInput)) = "IntentRequest" /\
  name (intent (request (requestEnvelope handlerInput))) = intentName.
Proof.
  unfold isIntentRequest, Alexa.getIntentName, Alexa.getRequestType.
  destruct (String.eqb _ "IntentRequest") eqn:Htype; [| discriminate].
  cbn [JS.bind]. intros [= Hname].
  split; by apply String.eqb_eq.
Qed.

Lemma getSlotValue_intent (handlerInput : HandlerInput) (slotName : string) :
  type (request (requestEnvelope handlerInput)) = "IntentRequest" ->
  Alexa.getSlotValue (requestEnvelope handlerInput) slotName
  = Ok (slot_value handlerInput slotName).
Proof.
  intros Htype. unfold Alexa.getSlotValue, Alexa.getRequestType.
  rewrite Htype. reflexivity.
Qed.

(** ** SetSpeedIntent *)

(** What the handler does with a slot that parses as an integer: the speed
    it stores is the integer clamped to 1..100. *)
Lemma SetSpeed_clamps_integer (handlerInput : HandlerInput) (z : Z) :
  canHandle SetSpeedIntentHandler handlerInput = Ok true ->
  parseInt (slot_value handlerInput "Speed") = Num z ->
  exists r,
    handle SetSpeedIntentHandler handlerInput
    = Ok (r, <["speed" := VNumber (Num (Z.max 1 (Z.min 100 z)))]>
               (sessionAttributes handlerInput)) /\
    (1 <= Z.max 1 (Z.min 100 z) <= 100)%Z.
Proof.
  intros Hcan Hparse.
  apply isIntentRequest_true in Hcan as [Htype _].
  cbn [handle SetSpeedIntentHandler].
  rewrite (getSlotValue_intent _ _ Htype). cbn [JS.bind].
  rewrite Hparse. eexists. split; [reflexivity | lia].
Qed.

Example SetSpeed_minus_5 :
  handle SetSpeedIntentHandler (speed_request (VString "-5"))
  = Ok (responseBuilder |> speak ("speed set to 1 percent." +:+ BG_MUSIC) None |> getResponse,
        <["speed" := VNumber (Num 1)]> launched).
Proof. reflexivity. Qed.

Example SetSpeed_500 :
  handle SetSpeedIntentHandler (speed_request (VString "500"))
  = Ok (responseBuilder |> speak ("speed set to 100 percent." +:+ BG_MUSIC) None |> getResponse,
        <["speed" := VNumber (Num 100)]> launched).
Proof. reflexivity. Qed.

Example SetSpeed_42 :
  handle SetSpeedIntentHandler (speed_request (VString "42"))
  = Ok (responseBuilder |> speak ("speed set to 42 percent." +:+ BG_MUSIC) None |> getResponse,
        <["speed" := VNumber (Num 42)]> launched).
Proof. reflexivity. Qed.

(** A slot that [parseInt] cannot read goes through the clamp as NaN. *)
Lemma SetSpeed_unreadable_slot (handlerInput : HandlerInput) :
  canHandle SetSpeedIntentHandler handlerInput = Ok true ->
  parseInt (slot_value handlerInput "Speed") = NaN ->
  exists r,
    handle SetSpeedIntentHandler handlerInput
    = Ok (r, <["speed" := VNumber NaN]> (sessionAttributes handlerInput)).
Proof.
  intros Hcan Hparse.
  apply isIntentRequest_true in Hcan as [Htype _].
  cbn [handle SetSpeedIntentHandler].
  rewrite (getSlotValue_intent _ _ Htype). cbn [JS.bind].
  rewrite Hparse. eexists. reflexivity.
Qed.

Example SetSpeed_unfilled_slot :
  handle SetSpeedIntentHandler (speed_request VUndefined)
  = Ok (responseBuilder |> speak ("speed set to NaN percent." +:+ BG_MUSIC) None |> getResponse,
        <["speed" := VNumber NaN]> launched).
Proof. reflexivity. Qed.

(** C2.  The claim: whatever the raw Speed slot value, the stored speed
    lies in 1..100.  The code: for the slot value "fast", which
    [parseInt] cannot read, the handler accepts the request, stores NaN as
    the speed and says "speed set to NaN percent." *)
Theorem SetSpeed_stores_NaN :
  canHandle SetSpeedIntentHandler (speed_request (VString "fast")) = Ok true /\
  handle SetSpeedIntentHandler (speed_request (VString "fast"))
  = Ok (responseBuilder
        |> speak ("speed set to NaN percent." +:+ BG_MUSIC) None
        |> getResponse,
        <["speed" := VNumber NaN]> launched).
Proof. split; reflexivity. Qed.

(** ** Command intents *)

(** C6.  The claim: every command intent, "come" included, is answered
    with spoken text and a directive whose payload carries its type
    discriminator.  The code: the ComeIntent handler answers every request
    with "Hello, finally hit" and no directive. *)
Theorem ComeIntent_sends_no_directive (handlerInput : HandlerInput) :
  handle ComeIntentHandler handlerInput
  = Ok ({| outputSpeech := Some {| ssml := "Hello, finally hit"; playBehavior := None |};
           directives := [];
           shouldEndSession := None |},
        sessionAttributes handlerInput).
Proof. reflexivity. Qed.

(** C5.  The claim: a command intent whose required slot is absent is
    answered with a re-prompt, no directive, the session kept open.  The
    code: a MoveIntent without Direction is answered with a directive whose
    direction is undefined and with the text "undefined 2 seconds at 50
    percent speed"; [shouldEndSession] is not set. *)
Theorem MoveIntent_without_Direction_sends_directive :
  canHandle (@MoveIntentHandler (Util_spec one_gadget)) move_without_direction = Ok true /\
  handle (@MoveIntentHandler (Util_spec one_gadget)) move_without_direction
  = Ok ({| outputSpeech :=
             Some {| ssml := "undefined 2 seconds at 50 percent speed" +:+ BG_MUSIC;
                     playBehavior := None |};
           directives :=
             [VObject [("targetEndpoint", VString "E1");
                       ("namespace", VString NAMESPACE);
                       ("name", VString NAME_CONTROL);
                       ("payload",
                        VObject [("type", VString "move"); ("direction", VUndefined);
                                 ("duration", VString "2"); ("speed", VString "50")])]];
           shouldEndSession := None |},
        launched).
Proof. split; reflexivity. Qed.

(** ** The event-handler timer: expiry and launch *)

Section Timer.

Context {U : Util.Interface}.

(** C3.  On a CustomInterfaceController.Expired request the request id
    becomes the session token.  With a budget of 0 the response sets
    shouldEndSession to true and holds no directive.  With a positive
    budget [n], a safe integer so that the decrement is exact, the budget
    stored is [n - 1], the response holds the timer-start directive built
    from the new token and 60000 ms, the text says how many renewals
    remain, and shouldEndSession is not set. *)
Theorem Expired_extension_budget (handlerInput : HandlerInput) :
  (sessionAttributes handlerInput !! "duration" = Some (VNumber (Num 0)) ->
   exists r,
     handle ExpiredRequestHandler handlerInput
     = Ok (r, <["token" := VString (requestId (request (requestEnvelope handlerInput)))]>
                (sessionAttributes handlerInput)) /\
     shouldEndSession r = Some true /\
     directives r = [])
  /\
  (forall (n : Z) (directive : value),
     (0 < n)%Z ->
     safe_budget n ->
     sessionAttributes handlerInput !! "duration" = Some (VNumber (Num n)) ->
     Util.buildStartEventHandler
       (VString (requestId (request (requestEnvelope handlerInput)))) 60000%Z (VObject [])
     = Ok directive ->
     exists r,
       handle ExpiredRequestHandler handlerInput
       = Ok (r, <["duration" := VNumber (Num (n - 1))]>
                  (<["token" := VString (requestId (request (requestEnvelope handlerInput)))]>
                     (sessionAttributes handlerInput))) /\
       directives r = [directive] /\
       outputSpeech r
       = Some {| ssml := (number_to_string (Num (n - 1)) +:+ " minutes remaining.") +:+ BG_MUSIC;
                 playBehavior := None |} /\
       shouldEndSession r = None).
Proof.
  split.
  - intros Hduration. cbn [handle ExpiredRequestHandler].
    unfold getSessionAttribute, Util.putSessionAttribute.
    rewrite lookup_insert_ne by done. rewrite Hduration.
    eexists. repeat split.
  - intros n directive Hpos _ Hduration Hbuild. cbn [handle ExpiredRequestHandler].
    unfold getSessionAttribute, Util.putSessionAttribute.
    rewrite lookup_insert_ne by done. rewrite Hduration.
    change (default VUndefined (Some (VNumber (Num n)))) with (VNumber (Num n)).
    unfold JS.or. cbn [truthy].
    replace (n =? 0)%Z with false by lia. cbn [negb to_number lt].
    replace (0 <? n)%Z with true by lia.
    rewrite Hbuild. cbn [JS.bind].
    eexists. repeat split.
Qed.

(** C7.  A launch for which discovery returns no endpoint, an empty array
    or no array at all, is answered with the apology alone: no directive,
    and the session attributes are as they were. *)
Theorem Launch_without_gadget (handlerInput : HandlerInput)
    (apiEndpoint apiAccessToken apiResponse endpoints : value) :
  get (System (context (requestEnvelope handlerInput))) "apiEndpoint" = Ok apiEndpoint ->
  get (System (context (requestEnvelope handlerInput))) "apiAccessToken" = Ok apiAccessToken ->
  Util.getConnectedEndpoints apiEndpoint apiAccessToken = Ok apiResponse ->
  get apiResponse "endpoints" = Ok endpoints ->
  endpoints = VArray [] \/ truthy endpoints = false ->
  exists r,
    handle LaunchRequestHandler handlerInput = Ok (r, sessionAttributes handlerInput) /\
    outputSpeech r
    = Some {| ssml := "I couldn't find an EV3 Brick connected to this Echo device. Please check to make sure your EV3 Brick is connected, and try again.";
              playBehavior := None |} /\
    directives r = [] /\
    shouldEndSession r = None.
Proof.
  intros Hendpoint Htoken Hdiscovery Hendpoints Hnone.
  cbn [handle LaunchRequestHandler].
  rewrite Hendpoint. cbn [JS.bind]. rewrite Htoken. cbn [JS.bind].
  rewrite Hdiscovery. cbn [JS.bind]. rewrite Hendpoints. cbn [JS.bind].
  assert (JS.or endpoints (VArray []) = VArray []) as ->.
  { destruct Hnone as [-> | Hfalsy]; [reflexivity |].
    unfold JS.or. by rewrite Hfalsy. }
  eexists. repeat split.
Qed.

(** C8 (amended).  A launch for which discovery returns at least one
    endpoint: the session stores as endpointId the id of the first endpoint
    when that id is truthy, a non-empty string, and an empty array
    otherwise; it stores 10 as duration and the request id as token, and
    the response holds the timer-start directive built from that token and
    60000 ms. *)
Theorem Launch_stores_first_endpoint (handlerInput : HandlerInput)
    (apiEndpoint apiAccessToken apiResponse first id : value) (others : list value)
    (directive : value) :
  get (System (context (requestEnvelope handlerInput))) "apiEndpoint" = Ok apiEndpoint ->
  get (System (context (requestEnvelope handlerInput))) "apiAccessToken" = Ok apiAccessToken ->
  Util.getConnectedEndpoints apiEndpoint apiAccessToken = Ok apiResponse ->
  get apiResponse "endpoints" = Ok (VArray (first :: others)) ->
  get first "endpointId" = Ok id ->
  Util.buildStartEventHandler
    (VString (requestId (request (requestEnvelope handlerInput)))) 60000%Z (VObject [])
  = Ok directive ->
  exists r attributes,
    handle LaunchRequestHandler handlerInput = Ok (r, attributes) /\
    attributes
    = <["token" := VString (requestId (request (requestEnvelope handlerInput)))]>
        (<["duration" := VNumber (Num 10)]>
           (<["endpointId" := if truthy id then id else VArray []]>
              (sessionAttributes handlerInput))) /\
    attributes !! "endpointId" = Some (if truthy id then id else VArray []) /\
    attributes !! "duration" = Some (VNumber (Num 10)) /\
    attributes !! "token"
    = Some (VString (requestId (request (requestEnvelope handlerInput)))) /\
    directives r = [directive] /\
    outputSpeech r
    = Some {| ssml := "Welcome, Gripper Helper is here for your command" +:+ BG_MUSIC;
              playBehavior := None |}.
Proof.
  intros Hendpoint Htoken Hdiscovery Hendpoints Hid Hbuild.
  cbn [handle LaunchRequestHandler].
  rewrite Hendpoint. cbn [JS.bind]. rewrite Htoken. cbn [JS.bind].
  rewrite Hdiscovery. cbn [JS.bind]. rewrite Hendpoints. cbn [JS.bind].
  unfold JS.or at 1. cbn [truthy get]. decide_literals. cbn [JS.bind strict_eq number_eqb length].
  destruct (Z.eqb_spec (Z.of_nat (S (length others))) 0) as [Hzero | _]; [lia |].
  cbn [get_index nth JS.bind]. rewrite Hid. cbn [JS.bind].
  rewrite Hbuild. cbn [JS.bind].
  unfold Util.putSessionAttribute, JS.or.
  eexists _, _. split; [reflexivity |].
  split; [reflexivity |].
  split; [by rewrite !lookup_insert_ne, lookup_insert_eq by done |].
  split; [by rewrite lookup_insert_ne, lookup_insert_eq by done |].
  split; [by rewrite lookup_insert_eq |].
  split; reflexivity.
Qed.

End Timer.

Lemma Expired_extension_budget_witness :
  (exists r,
     handle (@ExpiredRequestHandler (Util_spec one_gadget)) (expiry 0)
     = Ok (r, <["token" := VString "req-9"]> (sessionAttributes (expiry 0))) /\
     shouldEndSession r = Some true /\
     directives r = [])
  /\
  (exists r,
     handle (@ExpiredRequestHandler (Util_spec one_gadget)) (expiry 3)
     = Ok (r, <["duration" := VNumber (Num 2)]>
                (<["token" := VString "req-9"]> (sessionAttributes (expiry 3)))) /\
     directives r
     = [VObject [("token", VString "req-9"); ("durationMs", VNumber (Num 60000));
                 ("extraConfig", VObject [])]] /\
     outputSpeech r
     = Some {| ssml := "2 minutes remaining." +:+ BG_MUSIC; playBehavior := None |} /\
     shouldEndSession r = None).
Proof.
  split.
  - apply (proj1 (@Expired_extension_budget (Util_spec one_gadget) (expiry 0))).
    reflexivity.
  - apply (proj2 (@Expired_extension_budget (Util_spec one_gadget) (expiry 3)) 3%Z);
      [lia | by vm_compute | reflexivity | reflexivity].
Defined.

Lemma Launch_without_gadget_witness :
  exists r,
    handle (@LaunchRequestHandler (Util_spec no_gadget)) launch = Ok (r, ∅) /\
    outputSpeech r
    = Some {| ssml := "I couldn't find an EV3 Brick connected to this Echo device. Please check to make sure your EV3 Brick is connected, and try again.";
              playBehavior := None |} /\
    directives r = [] /\
    shouldEndSession r = None.
Proof.
  apply (@Launch_without_gadget (Util_spec no_gadget) launch
           (VString "https://api.amazonalexa.com") (VString "access-token")
           no_gadget (VArray []));
    try reflexivity.
  left. reflexivity.
Defined.

Lemma Launch_stores_first_endpoint_witness :
  exists r attributes,
    handle (@LaunchRequestHandler (Util_spec one_gadget)) launch = Ok (r, attributes) /\
    attributes = launched /\
    attributes !! "endpointId" = Some (VString "E1") /\
    attributes !! "duration" = Some (VNumber (Num 10)) /\
    attributes !! "token" = Some (VString "req-1") /\
    directives r
    = [VObject [("token", VString "req-1"); ("durationMs", VNumber (Num 60000));
                ("extraConfig", VObject [])]] /\
    outputSpeech r
    = Some {| ssml := "Welcome, Gripper Helper is here for your command" +:+ BG_MUSIC;
              playBehavior := None |}.
Proof.
  apply (@Launch_stores_first_endpoint (Util_spec one_gadget) launch
           (VString "https://api.amazonalexa.com") (VString "access-token")
           one_gadget (VObject [("endpointId", VString "E1")]) (VString "E1") []);
    reflexivity.
Defined.

(** C8 as stated fails: discovery returns one endpoint, whose id is the
    empty string, or which has no id; the launch does not store that id as
    endpointId but an empty array, and starts the timer. *)
Lemma Launch_stores_array_for_empty_id :
  (get (VObject [("endpointId", VString EmptyString)]) "endpointId" = Ok (VString EmptyString) /\
   exists r attributes,
     handle (@LaunchRequestHandler (Util_spec unnamed_gadget)) launch = Ok (r, attributes) /\
     attributes !! "endpointId" = Some (VArray []) /\
     length (directives r) = 1%nat)
  /\
  (get (VObject []) "endpointId" = Ok VUndefined /\
   exists r attributes,
     handle (@LaunchRequestHandler (Util_spec nameless_gadget)) launch = Ok (r, attributes) /\
     attributes !! "endpointId" = Some (VArray []) /\
     length (directives r) = 1%nat).
Proof. split; (split; [reflexivity |]); eexists _, _; repeat split. Qed.

(** ** Determinism of the command handlers *)

(** Split on the tests a handler makes, as found in hypothesis [H]. *)
Ltac split_tests H :=
  repeat match type of H with
  | context [JS.bind ?m _] => destruct m eqn:?; cbn [JS.bind] in H
  | context [if ?c then _ else _] => destruct c eqn:?
  end.

Section Commands.

Context {U : Util.Interface}.

Lemma command_handler_reads_intent (h : RequestHandler) (first second : RequestEnvelope)
    (attributes : gmap string value) :
  In h commandHandlers ->
  same_intent first second ->
  handle h (with_session first attributes) = handle h (with_session second attributes).
Proof.
  intros Hin [Htype Hintent].
  cbn [In commandHandlers] in Hin.
  destruct Hin as [<- | [<- | [<- | [<- | [<- | []]]]]];
    cbn [handle MoveIntentHandler ComeIntentHandler BringIntentHandler
         TakeIntentHandler SetCommandIntentHandler];
    unfold Alexa.getSlotValue, Alexa.getRequestType;
    cbn [requestEnvelope sessionAttributes with_session];
    rewrite ?Htype, ?Hintent; reflexivity.
Qed.

Lemma command_handler_keeps_session (h : RequestHandler) (handlerInput : HandlerInput)
    (r : Response) (attributes : gmap string value) :
  In h commandHandlers ->
  handle h handlerInput = Ok (r, attributes) ->
  attributes = sessionAttributes handlerInput.
Proof.
  intros Hin Hhandle.
  cbn [In commandHandlers] in Hin.
  destruct Hin as [<- | [<- | [<- | [<- | [<- | []]]]]];
    cbn [handle MoveIntentHandler ComeIntentHandler BringIntentHandler
         TakeIntentHandler SetCommandIntentHandler] in Hhandle;
    split_tests Hhandle; congruence.
Qed.

End Commands.


(** ** The handlers that check their slot *)

Section Slots.

Context {U : Util.Interface}.

(** Bring, Take and SetCommand re-prompt when their slot is missing or
    empty: no directive, the session kept open and left as it was. *)
Lemma missing_slot_reprompt (h : RequestHandler) (slotName : string)
    (handlerInput : HandlerInput) :
  In (h, slotName)
     [(BringIntentHandler, "Bring"); (TakeIntentHandler, "Take");
      (SetCommandIntentHandler, "Command")] ->
  canHandle h handlerInput = Ok true ->
  truthy (slot_value handlerInput slotName) = false ->
  handle h handlerInput = Ok (reprompt, sessionAttributes handlerInput).
Proof.
  intros Hin Hcan Hmissing.
  cbn [In] in Hin.
  destruct Hin as [[= <- <-] | [[= <- <-] | [[= <- <-] | []]]];
    apply isIntentRequest_true in Hcan as [Htype _];
    cbn [handle BringIntentHandler TakeIntentHandler SetCommandIntentHandler];
    rewrite (getSlotValue_intent _ _ Htype); cbn [JS.bind];
    rewrite Hmissing; reflexivity.
Qed.

(** With their slot filled they read endpointId and speed from the
    session, speed defaulting to "50", and answer with the directive built
    from the payload that carries their discriminator. *)
Lemma filled_slot_directive (h : RequestHandler) (slotName discriminator : string)
    (handlerInput : HandlerInput) (directive : value) :
  In (h, slotName, discriminator)
     [(BringIntentHandler, "Bring", "bring"); (TakeIntentHandler, "Take", "take");
      (SetCommandIntentHandler, "Command", "command")] ->
  canHandle h handlerInput = Ok true ->
  truthy (slot_value handlerInput slotName) = true ->
  Util.build
    (JS.or (getSessionAttribute (sessionAttributes handlerInput) "endpointId") (VArray []))
    NAMESPACE NAME_CONTROL
    (command_payload discriminator (slot_value handlerInput slotName)
       (JS.or (getSessionAttribute (sessionAttributes handlerInput) "speed") (VString "50")))
  = Ok directive ->
  exists r,
    handle h handlerInput = Ok (r, sessionAttributes handlerInput) /\
    is_Some (outputSpeech r) /\
    directives r = [directive].
Proof.
  intros Hin Hcan Hfilled Hbuild.
  cbn [In] in Hin.
  destruct Hin as [[= <- <- <-] | [[= <- <- <-] | [[= <- <- <-] | []]]];
    apply isIntentRequest_true in Hcan as [Htype _];
    cbn [handle BringIntentHandler TakeIntentHandler SetCommandIntentHandler];
    rewrite (getSlotValue_intent _ _ Htype); cbn [JS.bind];
    rewrite Hfilled; cbn [negb];
    unfold command_payload in Hbuild; rewrite Hbuild; cbn [JS.bind];
    eexists; repeat split; by eexists.
Qed.

(** The MoveIntent handler builds its directive from the slots and the
    session, whatever the Direction slot holds. *)
Lemma Move_directive (handlerInput : HandlerInput) (directive : value) :
  canHandle MoveIntentHandler handlerInput = Ok true ->
  Util.build
    (JS.or (getSessionAttribute (sessionAttributes handlerInput) "endpointId") (VArray []))
    NAMESPACE NAME_CONTROL
    (VObject [("type", VString "move");
              ("direction", slot_value handlerInput "Direction");
              ("duration", JS.or (slot_value handlerInput "Duration") (VString "2"));
              ("speed",
               JS.or (getSessionAttribute (sessionAttributes handlerInput) "speed")
                     (VString "50"))])
  = Ok directive ->
  exists r,
    handle MoveIntentHandler handlerInput = Ok (r, sessionAttributes handlerInput) /\
    is_Some (outputSpeech r) /\
    directives r = [directive] /\
    shouldEndSession r = None.
Proof.
  intros Hcan Hbuild.
  apply isIntentRequest_true in Hcan as [Htype _].
  cbn [handle MoveIntentHandler].
  rewrite !(getSlotValue_intent _ _ Htype). cbn [JS.bind].
  rewrite Hbuild. cbn [JS.bind].
  eexists. split; [reflexivity |]. split; [by eexists |]. split; reflexivity.
Qed.

(** C9.  The claim: a command intent issued twice on an unchanged session
    produces two directives with identical payloads.  The code does so for
    the handlers that build a directive: with their slot filled and the
    builder returning, Bring, Take and SetCommand answer both requests with
    the one directive built from the same payload, and so does Move.  A
    ComeIntent issued twice is answered twice without any directive: there
    is no directive and no payload to compare. *)
Theorem command_issued_twice (first second : RequestEnvelope)
    (attributes : gmap string value) :
  same_intent first second ->
  (forall (h : RequestHandler) (slotName discriminator : string) (directive : value),
      In (h, slotName, discriminator)
         [(BringIntentHandler, "Bring", "bring"); (TakeIntentHandler, "Take", "take");
          (SetCommandIntentHandler, "Command", "command")] ->
      canHandle h (with_session first attributes) = Ok true ->
      truthy (slot_value (with_session first attributes) slotName) = true ->
      Util.build
        (JS.or (getSessionAttribute attributes "endpointId") (VArray []))
        NAMESPACE NAME_CONTROL
        (command_payload discriminator (slot_value (with_session first attributes) slotName)
           (JS.or (getSessionAttribute attributes "speed") (VString "50")))
      = Ok directive ->
      exists r,
        handle h (with_session first attributes) = Ok (r, attributes) /\
        handle h (with_session second attributes) = Ok (r, attributes) /\
        directives r = [directive])
  /\
  (forall directive : value,
      canHandle MoveIntentHandler (with_session first attributes) = Ok true ->
      Util.build
        (JS.or (getSessionAttribute attributes "endpointId") (VArray []))
        NAMESPACE NAME_CONTROL
        (VObject [("type", VString "move");
                  ("direction", slot_value (with_session first attributes) "Direction");
                  ("duration",
                   JS.or (slot_value (with_session first attributes) "Duration")
                         (VString "2"));
                  ("speed", JS.or (getSessionAttribute attributes "speed") (VString "50"))])
      = Ok directive ->
      exists r,
        handle MoveIntentHandler (with_session first attributes) = Ok (r, attributes) /\
        handle MoveIntentHandler (with_session second attributes) = Ok (r, attributes) /\
        directives r = [directive])
  /\
  (exists r,
      handle ComeIntentHandler (with_session first attributes) = Ok (r, attributes) /\
      handle ComeIntentHandler (with_session second attributes) = Ok (r, attributes) /\
      directives r = []).
Proof.
  intros Hsame. split; [| split].
  - intros h slotName discriminator directive Hin Hcan Hfilled Hbuild.
    destruct (filled_slot_directive h slotName discriminator _ directive
                Hin Hcan Hfilled Hbuild) as (r & Hfirst & _ & Hdirective).
    cbn [sessionAttributes with_session] in Hfirst.
    exists r. split; [exact Hfirst |]. split; [| exact Hdirective].
    rewrite <- Hfirst. symmetry. apply command_handler_reads_intent; [| exact Hsame].
    cbn [In commandHandlers]. cbn [In] in Hin.
    destruct Hin as [[= <- _ _] | [[= <- _ _] | [[= <- _ _] | []]]]; auto 6.
  - intros directive Hcan Hbuild.
    destruct (Move_directive _ directive Hcan Hbuild) as (r & Hfirst & _ & Hdirective & _).
    cbn [sessionAttributes with_session] in Hfirst.
    exists r. split; [exact Hfirst |]. split; [| exact Hdirective].
    rewrite <- Hfirst. symmetry. apply command_handler_reads_intent; [| exact Hsame].
    cbn [In commandHandlers]. auto.
  - eexists. repeat split.
Qed.

End Slots.

Lemma command_issued_twice_witness :
  (exists r,
      handle (@BringIntentHandler (Util_spec one_gadget))
             (with_session (bring_water "req-10") launched) = Ok (r, launched) /\
      handle (@BringIntentHandler (Util_spec one_gadget))
             (with_session (bring_water "req-11") launched) = Ok (r, launched) /\
      directives r
      = [VObject [("targetEndpoint", VString "E1");
                  ("namespace", VString NAMESPACE);
                  ("name", VString NAME_CONTROL);
                  ("payload", command_payload "bring" (VString "water") (VString "50"))]])
  /\
  canHandle ComeIntentHandler (with_session (come_here "req-12") launched) = Ok true /\
  canHandle ComeIntentHandler (with_session (come_here "req-13") launched) = Ok true /\
  (exists r,
      handle ComeIntentHandler (with_session (come_here "req-12") launched)
      = Ok (r, launched) /\
      handle ComeIntentHandler (with_session (come_here "req-13") launched)
      = Ok (r, launched) /\
      directives r = []).
Proof.
  split; [| split; [reflexivity | split; [reflexivity |]]].
  - destruct (@command_issued_twice (Util_spec one_gadget)
                (bring_water "req-10") (bring_water "req-11") launched)
      as (Hslot & _); [split; reflexivity |].
    apply (Hslot (@BringIntentHandler (Util_spec one_gadget)) "Bring" "bring");
      try reflexivity.
    cbn [In]. auto.
  - apply (@command_issued_twice (Util_spec one_gadget)
             (come_here "req-12") (come_here "req-13") launched).
    split; reflexivity.
Defined.

(** The scenario of the specification: Direction "forward", Duration "3"
    and a stored speed of 70. *)
Example Move_forward_3_at_70 :
  handle (@MoveIntentHandler (Util_spec one_gadget))
    (with_session
       (intent_request "req-4" "MoveIntent"
          [("Direction", VString "forward"); ("Duration", VString "3")])
       (<["speed" := VNumber (Num 70)]> launched))
  = Ok ({| outputSpeech :=
             Some {| ssml := "forward 3 seconds at 70 percent speed" +:+ BG_MUSIC;
                     playBehavior := None |};
           directives :=
             [VObject [("targetEndpoint", VString "E1");
                       ("namespace", VString NAMESPACE);
                       ("name", VString NAME_CONTROL);
                       ("payload",
                        VObject [("type", VString "move");
                                 ("direction", VString "forward");
                                 ("duration", VString "3");
                                 ("speed", VNumber (Num 70))])]];
           shouldEndSession := None |},
        <["speed" := VNumber (Num 70)]> launched).
Proof. reflexivity. Qed.

(** ** Gadget events *)

Lemma get_defined (v : value) (k : string) :
  nullish v = false -> exists w, get v k = Ok w.
Proof.
  destruct v; cbn [nullish get]; try discriminate; intros _;
    try destruct (String.eqb k "length"); eexists; reflexivity.
Qed.

(** C10.  The events handler on a Proximity event whose distance, a string
    or a number printed in plain decimal, parses to 10 or more, or on a
    Sentry event whose payload has neither a 'fire' nor a 'move' key: no
    branch assigns the speech, the text spoken is "undefined" followed by
    the background music tag, there is no directive and the session
    attributes are as they were. *)
Theorem unassigned_speech_is_undefined (handlerInput : HandlerInput)
    (customEvent payload header : value) :
  get_index (events (request (requestEnvelope handlerInput))) 0 = Ok customEvent ->
  get customEvent "payload" = Ok payload ->
  get customEvent "header" = Ok header ->
  (get header "name" = Ok (VString "Proximity") /\
   exists (distance : value) (n : Z),
     get payload "distance" = Ok distance /\ prints_plainly distance /\
     parseInt distance = Num n /\ (10 <= n)%Z)
  \/
  (get header "name" = Ok (VString "Sentry") /\
   has_property "fire" payload = Ok false /\
   has_property "move" payload = Ok false) ->
  handle EventsReceivedRequestHandler handlerInput
  = Ok (undefined_speech, sessionAttributes handlerInput) /\
  outputSpeech undefined_speech
  = Some {| ssml := "undefined" +:+ BG_MUSIC; playBehavior := Some "REPLACE_ALL" |} /\
  directives undefined_speech = [].
Proof.
  intros Hevent Hpayload Hheader Hcase.
  split; [| split; reflexivity].
  cbn [handle EventsReceivedRequestHandler].
  rewrite Hevent. cbn [JS.bind]. rewrite Hpayload. cbn [JS.bind].
  rewrite Hheader. cbn [JS.bind].
  destruct Hcase as [(Hname & distance & n & Hdistance & _ & Hparse & Hfar)
                    | (Hname & Hfire & Hmove)];
    rewrite Hname; cbn [JS.bind strict_eq]; decide_literals.
  - rewrite Hdistance. cbn [JS.bind]. rewrite Hparse. cbn [lt].
    destruct (Z.ltb_spec n 10); [lia | reflexivity].
  - rewrite Hfire. cbn [JS.bind]. rewrite Hmove. reflexivity.
Qed.

Lemma unassigned_speech_is_undefined_witness :
  (handle EventsReceivedRequestHandler
     (event "Proximity" (VObject [("distance", VNumber (Num 15))]))
   = Ok (undefined_speech, launched) /\
   outputSpeech undefined_speech
   = Some {| ssml := "undefined" +:+ BG_MUSIC; playBehavior := Some "REPLACE_ALL" |} /\
   directives undefined_speech = [])
  /\
  (handle EventsReceivedRequestHandler (event "Sentry" (VObject [("idle", VBool true)]))
   = Ok (undefined_speech, launched) /\
   outputSpeech undefined_speech
   = Some {| ssml := "undefined" +:+ BG_MUSIC; playBehavior := Some "REPLACE_ALL" |} /\
   directives undefined_speech = []).
Proof.
  split.
  - apply (unassigned_speech_is_undefined
             (event "Proximity" (VObject [("distance", VNumber (Num 15))]))
             (gadget_event "Proximity" "E1" (VObject [("distance", VNumber (Num 15))]))
             (VObject [("distance", VNumber (Num 15))])
             (VObject [("namespace", VString NAMESPACE); ("name", VString "Proximity")]));
      try reflexivity.
    left. split; [reflexivity |].
    exists (VNumber (Num 15)), 15%Z.
    split; [reflexivity |]. split; [by vm_compute |]. split; [reflexivity | lia].
  - apply (unassigned_speech_is_undefined
             (event "Sentry" (VObject [("idle", VBool true)]))
             (gadget_event "Sentry" "E1" (VObject [("idle", VBool true)]))
             (VObject [("idle", VBool true)])
             (VObject [("namespace", VString NAMESPACE); ("name", VString "Sentry")]));
      try reflexivity.
    right. repeat split.
Defined.

(** ** The predicates *)

Section Predicates.

Context {U : Util.Interface}.

(** C4 (amended).  Every handler predicate of index.js returns a boolean
    on a request of the shape the events predicate relies on: an
    EventsReceived request has a first event to read, and when its token is
    the session's, that event has an endpoint.  The predicates of the other
    handlers return on every request. *)
Theorem predicates_return (h : RequestHandler) (handlerInput : HandlerInput) :
  In h definedHandlers ->
  events_well_formed handlerInput ->
  exists b, canHandle h handlerInput = Ok b.
Proof.
  intros Hin Hshape.
  cbn [In definedHandlers] in Hin.
  destruct Hin as [<- | [<- | [<- | [<- | [<- | [<- | [<- | [<- | [<- | []]]]]]]]]];
    try apply isIntentRequest_total;
    try (eexists; reflexivity).
  cbn [canHandle EventsReceivedRequestHandler].
  destruct (String.eqb _ "CustomInterfaceController.EventsReceived") eqn:Htype;
    cbn [negb]; [| eexists; reflexivity].
  apply String.eqb_eq in Htype.
  destruct (Hshape Htype) as (customEvent & -> & Hendpoint). cbn [JS.bind].
  destruct (strict_eq _ (token _)); cbn [negb]; [| eexists; reflexivity].
  destruct (Hendpoint eq_refl) as (endpoint & -> & Hdefined). cbn [JS.bind].
  destruct (get_defined endpoint "endpointId" Hdefined) as [requestEndpoint ->].
  cbn [JS.bind].
  destruct (strict_eq requestEndpoint _); eexists; reflexivity.
Qed.

End Predicates.

Lemma predicates_return_witness :
  exists b,
    canHandle EventsReceivedRequestHandler
      (event "Proximity" (VObject [("distance", VNumber (Num 5))])) = Ok b.
Proof.
  apply (@predicates_return (Util_spec one_gadget) EventsReceivedRequestHandler).
  - cbn [In definedHandlers]. do 7 right. left. reflexivity.
  - intros _. eexists. split; [reflexivity |].
    intros _. eexists. split; reflexivity.
Defined.

(** C4 as stated fails: with the token of the session and an empty events
    array, or a first event without endpoint, the predicate of the events
    handler raises a TypeError. *)
Lemma EventsReceived_canHandle_throws :
  canHandle EventsReceivedRequestHandler empty_events = Throw TypeError /\
  canHandle EventsReceivedRequestHandler event_without_endpoint = Throw TypeError.
Proof. split; reflexivity. Qed.

(** * Further properties of the handlers *)

(** ** Token and endpoint correlation *)

Lemma strict_eq_string (v : value) (s : string) :
  strict_eq (VString s) v = true -> v = VString s.
Proof.
  destruct v; cbn [strict_eq]; try discriminate.
  intros Heq. apply String.eqb_eq in Heq. by subst.
Qed.

Lemma strict_eq_array (l : list value) (v : value) : strict_eq v (VArray l) = false.
Proof. by destruct v. Qed.

(** The events predicate accepts a request exactly when it is an
    EventsReceived request whose token is the session's and whose first
    event names the session's endpoint. *)
Lemma events_predicate_accepts (handlerInput : HandlerInput) :
  canHandle EventsReceivedRequestHandler handlerInput = Ok true <->
  is_events_request handlerInput /\ correlated handlerInput.
Proof.
  unfold is_events_request, correlated. cbn [canHandle EventsReceivedRequestHandler].
  split.
  - destruct (String.eqb _ "CustomInterfaceController.EventsReceived") eqn:Htype;
      cbn [negb]; [| discriminate].
    apply String.eqb_eq in Htype. intros Hcan. split; [assumption |].
    destruct (get_index _ 0) as [customEvent |]; [| discriminate]. cbn [JS.bind] in Hcan.
    destruct (strict_eq _ (token _)) eqn:Htoken; cbn [negb] in Hcan; [| discriminate].
    destruct (get customEvent "endpoint") as [endpoint |] eqn:Hendpoint; [| discriminate].
    cbn [JS.bind] in Hcan.
    destruct (get endpoint "endpointId") as [requestEndpoint |] eqn:Hid; [| discriminate].
    cbn [JS.bind] in Hcan.
    destruct (strict_eq requestEndpoint _) eqn:Hsame; [| discriminate].
    exists customEvent, endpoint, requestEndpoint. by repeat split.
  - intros (Htype & customEvent & endpoint & requestEndpoint
            & Hevent & Htoken & Hendpoint & Hid & Hsame).
    rewrite Htype, Hevent. decide_literals. cbn [negb JS.bind].
    rewrite Htoken. cbn [negb]. rewrite Hendpoint. cbn [JS.bind].
    rewrite Hid. cbn [JS.bind]. by rewrite Hsame.
Qed.

(** X1.  The events predicate returns true exactly when the request is an
    EventsReceived request, its token is strictly equal to the token of the
    session and the endpoint id of its first event is strictly equal to the
    endpoint id of the session. *)
Theorem EventsReceived_accepts_iff (handlerInput : HandlerInput) :
  canHandle EventsReceivedRequestHandler handlerInput = Ok true <->
  is_events_request handlerInput /\ correlated handlerInput.
Proof. exact (events_predicate_accepts handlerInput). Qed.

Section Correlation.

Context {U : Util.Interface}.

(** Whatever a timer handler returns, the token it leaves in the session
    is the id of the request it answered. *)
Lemma timer_handler_stores_request_id (h : RequestHandler) (handlerInput : HandlerInput)
    (r : Response) (attributes : gmap string value) :
  In h timerHandlers ->
  handle h handlerInput = Ok (r, attributes) ->
  is_Some (outputSpeech r) /\
  (directives r <> [] ->
   attributes !! "token"
   = Some (VString (requestId (request (requestEnvelope handlerInput))))).
Proof.
  intros Hin Hhandle. cbn [In timerHandlers] in Hin.
  destruct Hin as [<- | [<- | []]];
    cbn [handle LaunchRequestHandler ExpiredRequestHandler] in Hhandle;
    split_tests Hhandle; try discriminate;
    injection Hhandle as <- <-; (split; [by eexists |]);
    intros Hdirective; try (by destruct Hdirective);
    unfold Util.putSessionAttribute;
    by rewrite ?lookup_insert_eq, ?lookup_insert_ne, ?lookup_insert_eq by done.
Qed.

(** X2.  After a launch or an expiry that started a timer, an event is accepted
    only if it carries, as its token, the id of that launch or expiry
    request: the token of every earlier timer is refused. *)
Theorem accepted_event_carries_timer_token (h : RequestHandler)
    (handlerInput : HandlerInput) (r : Response) (attributes : gmap string value)
    (env : RequestEnvelope) :
  In h timerHandlers ->
  handle h handlerInput = Ok (r, attributes) ->
  directives r <> [] ->
  canHandle EventsReceivedRequestHandler (with_session env attributes) = Ok true ->
  token (request env) = VString (requestId (request (requestEnvelope handlerInput))).
Proof.
  intros Hin Hhandle Hdirective Hcan.
  destruct (timer_handler_stores_request_id h handlerInput r attributes Hin Hhandle)
    as [_ Htoken].
  specialize (Htoken Hdirective).
  apply events_predicate_accepts in Hcan as [_ (e & ep & id & _ & Hsame & _)].
  cbn [sessionAttributes requestEnvelope with_session] in Hsame.
  unfold getSessionAttribute in Hsame. rewrite Htoken in Hsame.
  by apply strict_eq_string in Hsame.
Qed.

End Correlation.

Lemma accepted_event_carries_timer_token_witness :
  token (request (requestEnvelope
                    (event "Sentry" (VObject [("fire", VBool true)]))))
  = VString "req-1".
Proof.
  apply (@accepted_event_carries_timer_token (Util_spec one_gadget)
           (@LaunchRequestHandler (Util_spec one_gadget)) launch
           (responseBuilder
            |> speak ("Welcome, Gripper Helper is here for your command" +:+ BG_MUSIC) None
            |> addDirective
                 (VObject [("token", VString "req-1"); ("durationMs", VNumber (Num 60000));
                           ("extraConfig", VObject [])])
            |> getResponse)
           launched).
  - cbn [In timerHandlers]. auto.
  - reflexivity.
  - discriminate.
  - reflexivity.
Defined.

Lemma strict_eq_string_r (v : value) (s : string) :
  strict_eq v (VString s) = true <-> v = VString s.
Proof.
  split.
  - destruct v; cbn [strict_eq]; try discriminate.
    intros Heq. apply String.eqb_eq in Heq. by subst.
  - intros ->. cbn [strict_eq]. apply String.eqb_refl.
Qed.

Section LaunchedSession.

Context {U : Util.Interface}.

(** The session a launch leaves behind when discovery answered with a
    first endpoint. *)
Lemma Launch_attributes (handlerInput : HandlerInput)
    (apiEndpoint apiAccessToken apiResponse first id : value) (others : list value)
    (r : Response) (attributes : gmap string value) :
  get (System (context (requestEnvelope handlerInput))) "apiEndpoint" = Ok apiEndpoint ->
  get (System (context (requestEnvelope handlerInput))) "apiAccessToken" = Ok apiAccessToken ->
  Util.getConnectedEndpoints apiEndpoint apiAccessToken = Ok apiResponse ->
  get apiResponse "endpoints" = Ok (VArray (first :: others)) ->
  get first "endpointId" = Ok id ->
  handle LaunchRequestHandler handlerInput = Ok (r, attributes) ->
  attributes
  = <["token" := VString (requestId (request (requestEnvelope handlerInput)))]>
      (<["duration" := VNumber (Num 10)]>
         (<["endpointId" := JS.or id (VArray [])]> (sessionAttributes handlerInput))).
Proof.
  intros Hendpoint Htoken Hdiscovery Hendpoints Hid Hhandle.
  cbn [handle LaunchRequestHandler] in Hhandle.
  rewrite Hendpoint in Hhandle. cbn [JS.bind] in Hhandle.
  rewrite Htoken in Hhandle. cbn [JS.bind] in Hhandle.
  rewrite Hdiscovery in Hhandle. cbn [JS.bind] in Hhandle.
  rewrite Hendpoints in Hhandle. cbn [JS.bind] in Hhandle.
  unfold JS.or at 1 in Hhandle. cbn [truthy get] in Hhandle.
  change (String.eqb "length" "length") with true in Hhandle.
  cbn [JS.bind strict_eq number_eqb length] in Hhandle.
  destruct (Z.eqb_spec (Z.of_nat (S (length others))) 0) as [Hzero | _]; [lia |].
  cbn [get_index nth JS.bind] in Hhandle. rewrite Hid in Hhandle. cbn [JS.bind] in Hhandle.
  destruct (Util.buildStartEventHandler _ _ _); [| discriminate].
  cbn [JS.bind] in Hhandle. by injection Hhandle as _ <-.
Qed.

(** Such a launch starts the timer: its response holds the directive the
    builder made for the request id and 60000 ms. *)
Lemma Launch_directive (handlerInput : HandlerInput)
    (apiEndpoint apiAccessToken apiResponse first id : value) (others : list value)
    (r : Response) (attributes : gmap string value) :
  get (System (context (requestEnvelope handlerInput))) "apiEndpoint" = Ok apiEndpoint ->
  get (System (context (requestEnvelope handlerInput))) "apiAccessToken" = Ok apiAccessToken ->
  Util.getConnectedEndpoints apiEndpoint apiAccessToken = Ok apiResponse ->
  get apiResponse "endpoints" = Ok (VArray (first :: others)) ->
  get first "endpointId" = Ok id ->
  handle LaunchRequestHandler handlerInput = Ok (r, attributes) ->
  exists directive,
    Util.buildStartEventHandler
      (VString (requestId (request (requestEnvelope handlerInput)))) 60000%Z (VObject [])
    = Ok directive /\
    directives r = [directive].
Proof.
  intros Hendpoint Htoken Hdiscovery Hendpoints Hid Hhandle.
  cbn [handle LaunchRequestHandler] in Hhandle.
  rewrite Hendpoint in Hhandle. cbn [JS.bind] in Hhandle.
  rewrite Htoken in Hhandle. cbn [JS.bind] in Hhandle.
  rewrite Hdiscovery in Hhandle. cbn [JS.bind] in Hhandle.
  rewrite Hendpoints in Hhandle. cbn [JS.bind] in Hhandle.
  unfold JS.or at 1 in Hhandle. cbn [truthy get] in Hhandle.
  change (String.eqb "length" "length") with true in Hhandle.
  cbn [JS.bind strict_eq number_eqb length] in Hhandle.
  destruct (Z.eqb_spec (Z.of_nat (S (length others))) 0) as [Hzero | _]; [lia |].
  cbn [get_index nth JS.bind] in Hhandle. rewrite Hid in Hhandle. cbn [JS.bind] in Hhandle.
  destruct (Util.buildStartEventHandler _ _ _) as [directive |]; [| discriminate].
  cbn [JS.bind] in Hhandle. injection Hhandle as <- _.
  exists directive. by split.
Qed.

(** X3.  After a launch that found the gadget [id], the events predicate
    accepts exactly the EventsReceived requests whose token is the id of
    the launch request and whose first event names the endpoint [id]. *)
Theorem launched_session_accepts (handlerInput : HandlerInput)
    (apiEndpoint apiAccessToken apiResponse first : value) (others : list value)
    (id : string) (r : Response) (attributes : gmap string value) (env : RequestEnvelope) :
  get (System (context (requestEnvelope handlerInput))) "apiEndpoint" = Ok apiEndpoint ->
  get (System (context (requestEnvelope handlerInput))) "apiAccessToken" = Ok apiAccessToken ->
  Util.getConnectedEndpoints apiEndpoint apiAccessToken = Ok apiResponse ->
  get apiResponse "endpoints" = Ok (VArray (first :: others)) ->
  get first "endpointId" = Ok (VString id) ->
  id <> EmptyString ->
  handle LaunchRequestHandler handlerInput = Ok (r, attributes) ->
  canHandle EventsReceivedRequestHandler (with_session env attributes) = Ok true
  <->
  type (request env) = "CustomInterfaceController.EventsReceived" /\
  token (request env) = VString (requestId (request (requestEnvelope handlerInput))) /\
  exists customEvent endpoint,
    get_index (events (request env)) 0 = Ok customEvent /\
    get customEvent "endpoint" = Ok endpoint /\
    get endpoint "endpointId" = Ok (VString id).
Proof.
  intros Hendpoint Htoken Hdiscovery Hendpoints Hid Hnonempty Hhandle.
  rewrite (Launch_attributes _ _ _ _ _ _ _ _ _
             Hendpoint Htoken Hdiscovery Hendpoints Hid Hhandle).
  assert (JS.or (VString id) (VArray []) = VString id) as ->.
  { unfold JS.or. cbn [truthy].
    destruct (String.eqb id EmptyString) eqn:Hempty; [| reflexivity].
    by apply String.eqb_eq in Hempty. }
  rewrite events_predicate_accepts.
  unfold is_events_request, correlated, getSessionAttribute.
  cbn [sessionAttributes requestEnvelope with_session].
  rewrite lookup_insert_eq.
  rewrite !lookup_insert_ne, lookup_insert_eq by done.
  cbn [default from_option Datatypes.id].
  split.
  - intros (Htype & e & ep & rid & He & Htok & Hep & Hrid & Hsame).
    split; [assumption |]. split; [by apply strict_eq_string in Htok |].
    apply strict_eq_string_r in Hsame. subst rid. by exists e, ep.
  - intros (Htype & Htok & e & ep & He & Hep & Hrid).
    split; [assumption |]. exists e, ep, (VString id).
    rewrite Htok. cbn [strict_eq]. rewrite !String.eqb_refl. by repeat split.
Qed.

(** X4.  When the first endpoint discovered has no usable id (absent, empty),
    the launch stores an empty array as endpointId and starts the timer all
    the same; the events predicate then accepts no request at all. *)
Theorem launch_without_endpoint_id_accepts_no_event (handlerInput : HandlerInput)
    (apiEndpoint apiAccessToken apiResponse first id : value) (others : list value)
    (r : Response) (attributes : gmap string value) (env : RequestEnvelope) :
  get (System (context (requestEnvelope handlerInput))) "apiEndpoint" = Ok apiEndpoint ->
  get (System (context (requestEnvelope handlerInput))) "apiAccessToken" = Ok apiAccessToken ->
  Util.getConnectedEndpoints apiEndpoint apiAccessToken = Ok apiResponse ->
  get apiResponse "endpoints" = Ok (VArray (first :: others)) ->
  get first "endpointId" = Ok id ->
  truthy id = false ->
  handle LaunchRequestHandler handlerInput = Ok (r, attributes) ->
  attributes !! "endpointId" = Some (VArray []) /\
  (exists directive,
      Util.buildStartEventHandler
        (VString (requestId (request (requestEnvelope handlerInput)))) 60000%Z (VObject [])
      = Ok directive /\
      directives r = [directive]) /\
  canHandle EventsReceivedRequestHandler (with_session env attributes) <> Ok true.
Proof.
  intros Hendpoint Htoken Hdiscovery Hendpoints Hid Hfalsy Hhandle.
  pose proof (Launch_directive _ _ _ _ _ _ _ _ _
                Hendpoint Htoken Hdiscovery Hendpoints Hid Hhandle) as Hdirective.
  rewrite (Launch_attributes _ _ _ _ _ _ _ _ _
             Hendpoint Htoken Hdiscovery Hendpoints Hid Hhandle).
  assert (JS.or id (VArray []) = VArray []) as ->.
  { unfold JS.or. by rewrite Hfalsy. }
  split; [by rewrite !lookup_insert_ne, lookup_insert_eq by done |].
  split; [exact Hdirective |].
  rewrite events_predicate_accepts.
  intros (_ & e & ep & rid & _ & _ & _ & _ & Hsame).
  unfold getSessionAttribute in Hsame.
  cbn [sessionAttributes with_session] in Hsame.
  rewrite !lookup_insert_ne, lookup_insert_eq in Hsame by done.
  cbn [default from_option Datatypes.id] in Hsame.
  by rewrite strict_eq_array in Hsame.
Qed.

End LaunchedSession.

Lemma launched_session_accepts_witness :
  canHandle EventsReceivedRequestHandler
    (with_session
       (events_request "req-5" (VString "req-1")
          (VArray [gadget_event "Sentry" "E1" (VObject [])]))
       launched) = Ok true
  <->
  type (request (events_request "req-5" (VString "req-1")
                   (VArray [gadget_event "Sentry" "E1" (VObject [])])))
  = "CustomInterfaceController.EventsReceived" /\
  token (request (events_request "req-5" (VString "req-1")
                    (VArray [gadget_event "Sentry" "E1" (VObject [])])))
  = VString (requestId (request (requestEnvelope launch))) /\
  exists customEvent endpoint,
    get_index (events (request (events_request "req-5" (VString "req-1")
                                  (VArray [gadget_event "Sentry" "E1" (VObject [])])))) 0
    = Ok customEvent /\
    get customEvent "endpoint" = Ok endpoint /\
    get endpoint "endpointId" = Ok (VString "E1").
Proof.
  apply (@launched_session_accepts (Util_spec one_gadget) launch
           (VString "https://api.amazonalexa.com") (VString "access-token")
           one_gadget (VObject [("endpointId", VString "E1")]) [] "E1"
           (responseBuilder
            |> speak ("Welcome, Gripper Helper is here for your command" +:+ BG_MUSIC) None
            |> addDirective
                 (VObject [("token", VString "req-1"); ("durationMs", VNumber (Num 60000));
                           ("extraConfig", VObject [])])
            |> getResponse));
    try reflexivity.
  discriminate.
Defined.

Lemma launch_without_endpoint_id_accepts_no_event_witness :
  (<["token" := VString "req-1"]>
     (<["duration" := VNumber (Num 10)]> (<["endpointId" := VArray []]> ∅))
   : gmap string value) !! "endpointId" = Some (VArray []) /\
  (exists directive,
      @Util.buildStartEventHandler (Util_spec nameless_gadget)
        (VString (requestId (request (requestEnvelope launch)))) 60000%Z (VObject [])
      = Ok directive /\
      directives
        (responseBuilder
         |> speak ("Welcome, Gripper Helper is here for your command" +:+ BG_MUSIC) None
         |> addDirective
              (VObject [("token", VString "req-1"); ("durationMs", VNumber (Num 60000));
                        ("extraConfig", VObject [])])
         |> getResponse)
      = [directive]) /\
  canHandle EventsReceivedRequestHandler
    (with_session
       (events_request "req-5" (VString "req-1")
          (VArray [gadget_event "Sentry" "E1" (VObject [])]))
       (<["token" := VString "req-1"]>
          (<["duration" := VNumber (Num 10)]> (<["endpointId" := VArray []]> ∅))))
  <> Ok true.
Proof.
  apply (@launch_without_endpoint_id_accepts_no_event (Util_spec nameless_gadget) launch
           (VString "https://api.amazonalexa.com") (VString "access-token")
           nameless_gadget (VObject []) VUndefined []
           (responseBuilder
            |> speak ("Welcome, Gripper Helper is here for your command" +:+ BG_MUSIC) None
            |> addDirective
                 (VObject [("token", VString "req-1"); ("durationMs", VNumber (Num 60000));
                           ("extraConfig", VObject [])])
            |> getResponse));
    reflexivity.
Defined.

(** ** The events handler *)

(** X5.  Whatever the event, the events handler only speaks: it leaves the
    session attributes as they were, sends no directive, replaces the
    speech that is queued and never ends the session. *)
Theorem events_handler_only_speaks (handlerInput : HandlerInput) (r : Response)
    (attributes : gmap string value) :
  handle EventsReceivedRequestHandler handlerInput = Ok (r, attributes) ->
  attributes = sessionAttributes handlerInput /\
  directives r = [] /\
  (exists text, outputSpeech r = Some {| ssml := text; playBehavior := Some "REPLACE_ALL" |}) /\
  shouldEndSession r <> Some true.
Proof.
  intros Hhandle. cbn [handle EventsReceivedRequestHandler] in Hhandle.
  split_tests Hhandle; try discriminate;
    injection Hhandle as <- <-; repeat split; try (by eexists); discriminate.
Qed.

Lemma events_handler_only_speaks_witness :
  launched = sessionAttributes (event "Sentry" (VObject [("fire", VBool true)])) /\
  directives (responseBuilder
              |> speak ("Threat eliminated" +:+ BG_MUSIC) (Some "REPLACE_ALL")
              |> getResponse) = [] /\
  (exists text,
      outputSpeech (responseBuilder
                    |> speak ("Threat eliminated" +:+ BG_MUSIC) (Some "REPLACE_ALL")
                    |> getResponse)
      = Some {| ssml := text; playBehavior := Some "REPLACE_ALL" |}) /\
  shouldEndSession (responseBuilder
                    |> speak ("Threat eliminated" +:+ BG_MUSIC) (Some "REPLACE_ALL")
                    |> getResponse) <> Some true.
Proof.
  apply (events_handler_only_speaks (event "Sentry" (VObject [("fire", VBool true)]))).
  reflexivity.
Defined.

(** X6.  The predicate checks token and endpoint only.  An event it accepts
    still makes the handler raise a TypeError when it has no header, when
    it is a Proximity event without payload, or when it is a Sentry event
    whose payload is neither an object nor an array. *)
Theorem events_handler_raises (handlerInput : HandlerInput)
    (customEvent payload header : value) :
  get_index (events (request (requestEnvelope handlerInput))) 0 = Ok customEvent ->
  get customEvent "payload" = Ok payload ->
  get customEvent "header" = Ok header ->
  nullish header = true
  \/ (get header "name" = Ok (VString "Proximity") /\ nullish payload = true)
  \/ (get header "name" = Ok (VString "Sentry") /\
      forall fields elems, payload <> VObject fields /\ payload <> VArray elems) ->
  handle EventsReceivedRequestHandler handlerInput = Throw TypeError.
Proof.
  intros Hevent Hpayload Hheader Hcause.
  cbn [handle EventsReceivedRequestHandler].
  rewrite Hevent. cbn [JS.bind]. rewrite Hpayload. cbn [JS.bind].
  rewrite Hheader. cbn [JS.bind].
  destruct Hcause as [Hnull | [[Hname Hnull] | [Hname Hprimitive]]].
  - by destruct header.
  - rewrite Hname. cbn [JS.bind strict_eq]. decide_literals. by destruct payload.
  - rewrite Hname. cbn [JS.bind strict_eq]. decide_literals.
    destruct payload; try reflexivity.
    + by destruct (Hprimitive [] elems) as [_ []].
    + by destruct (Hprimitive fields []) as [[] _].
Qed.

Lemma events_handler_raises_witness :
  canHandle EventsReceivedRequestHandler event_without_header = Ok true /\
  handle EventsReceivedRequestHandler event_without_header = Throw TypeError.
Proof.
  split; [reflexivity |].
  apply (events_handler_raises event_without_header
           (VObject [("endpoint", VObject [("endpointId", VString "E1")]);
                     ("payload", VObject [("distance", VNumber (Num 5))])])
           (VObject [("distance", VNumber (Num 5))]) VUndefined);
    try reflexivity.
  left. reflexivity.
Defined.

(** X7.  A Proximity event whose distance is a string, or a number printed
    in plain decimal, is answered with the intruder alert, which keeps the
    session open, exactly when the distance parses to an integer below 10;
    a distance that [parseInt] cannot read is treated as far. *)
Theorem Proximity_alert_iff (handlerInput : HandlerInput)
    (customEvent payload header distance : value) :
  get_index (events (request (requestEnvelope handlerInput))) 0 = Ok customEvent ->
  get customEvent "payload" = Ok payload ->
  get customEvent "header" = Ok header ->
  get header "name" = Ok (VString "Proximity") ->
  get payload "distance" = Ok distance ->
  prints_plainly distance ->
  (handle EventsReceivedRequestHandler handlerInput
   = Ok (intruder_alert, sessionAttributes handlerInput)
   <-> exists n, parseInt distance = Num n /\ (n < 10)%Z)
  /\
  (handle EventsReceivedRequestHandler handlerInput
   = Ok (undefined_speech, sessionAttributes handlerInput)
   <-> parseInt distance = NaN \/ exists n, parseInt distance = Num n /\ (10 <= n)%Z).
Proof.
  intros Hevent Hpayload Hheader Hname Hdistance _.
  cbn [handle EventsReceivedRequestHandler].
  rewrite Hevent. cbn [JS.bind]. rewrite Hpayload. cbn [JS.bind].
  rewrite Hheader. cbn [JS.bind]. rewrite Hname. cbn [JS.bind strict_eq].
  decide_literals. rewrite Hdistance. cbn [JS.bind].
  destruct (parseInt distance) as [| n]; cbn [lt].
  - split; split.
    + discriminate.
    + intros [n [Hn _]]. discriminate.
    + auto.
    + reflexivity.
  - destruct (Z.ltb_spec n 10); split; split.
    + intros _. by exists n.
    + reflexivity.
    + discriminate.
    + intros [Hnan | [m [[= <-] Hm]]]; [discriminate | lia].
    + discriminate.
    + intros [m [[= <-] Hm]]. lia.
    + intros _. right. by exists n.
    + reflexivity.
Qed.

Lemma Proximity_alert_iff_witness :
  (handle EventsReceivedRequestHandler (event "Proximity" (VObject [("distance", VString "9.9")]))
   = Ok (intruder_alert,
         sessionAttributes (event "Proximity" (VObject [("distance", VString "9.9")])))
   <-> exists n, parseInt (VString "9.9") = Num n /\ (n < 10)%Z)
  /\
  (handle EventsReceivedRequestHandler (event "Proximity" (VObject [("distance", VString "9.9")]))
   = Ok (undefined_speech,
         sessionAttributes (event "Proximity" (VObject [("distance", VString "9.9")])))
   <-> parseInt (VString "9.9") = NaN
       \/ exists n, parseInt (VString "9.9") = Num n /\ (10 <= n)%Z).
Proof.
  apply (Proximity_alert_iff
           (event "Proximity" (VObject [("distance", VString "9.9")]))
           (gadget_event "Proximity" "E1" (VObject [("distance", VString "9.9")]))
           (VObject [("distance", VString "9.9")])
           (VObject [("namespace", VString NAMESPACE); ("name", VString "Proximity")])
           (VString "9.9"));
    first [reflexivity | exact I].
Defined.

(** ** The countdown of renewals *)

Section Countdown.

Context {U : Util.Interface}.

Lemma Expired_ends (handlerInput : HandlerInput) :
  sessionAttributes handlerInput !! "duration" = None
  \/ sessionAttributes handlerInput !! "duration" = Some (VNumber NaN)
  \/ (exists n, sessionAttributes handlerInput !! "duration" = Some (VNumber (Num n))
                /\ (n <= 0)%Z) ->
  handle ExpiredRequestHandler handlerInput
  = Ok (goodbye,
        <["token" := VString (requestId (request (requestEnvelope handlerInput)))]>
          (sessionAttributes handlerInput)).
Proof.
  intros Hbudget. cbn [handle ExpiredRequestHandler].
  unfold getSessionAttribute, Util.putSessionAttribute.
  rewrite lookup_insert_ne by done.
  destruct Hbudget as [-> | [-> | (n & -> & Hn)]]; try reflexivity.
  cbn [default from_option Datatypes.id]. unfold JS.or. cbn [truthy].
  destruct (Z.eqb_spec n 0) as [-> | Hne]; cbn [negb to_number lt]; [reflexivity |].
  destruct (Z.ltb_spec 0 n); [lia | reflexivity].
Qed.

Lemma Expired_renews (handlerInput : HandlerInput) (n : Z) :
  (forall token, exists directive,
      Util.buildStartEventHandler token 60000%Z (VObject []) = Ok directive) ->
  sessionAttributes handlerInput !! "duration" = Some (VNumber (Num n)) ->
  (0 < n)%Z ->
  exists r,
    handle ExpiredRequestHandler handlerInput
    = Ok (r, <["duration" := VNumber (Num (n - 1))]>
               (<["token" := VString (requestId (request (requestEnvelope handlerInput)))]>
                  (sessionAttributes handlerInput))) /\
    renews r.
Proof.
  intros Hbuild Hduration Hpos. cbn [handle ExpiredRequestHandler].
  unfold getSessionAttribute, Util.putSessionAttribute.
  rewrite lookup_insert_ne by done. rewrite Hduration.
  cbn [default from_option Datatypes.id]. unfold JS.or. cbn [truthy].
  destruct (Z.eqb_spec n 0); [lia |]. cbn [negb to_number lt].
  destruct (Z.ltb_spec 0 n); [| lia].
  destruct (Hbuild (VString (requestId (request (requestEnvelope handlerInput)))))
    as [directive ->].
  cbn [JS.bind]. eexists. split; [reflexivity |]. by split.
Qed.

(** X8.  An expiry without budget, the attribute absent, NaN, zero or negative,
    ends the session with the goodbye, sends no directive, and still makes
    the request id the session token. *)
Theorem Expired_without_budget_ends (handlerInput : HandlerInput) :
  sessionAttributes handlerInput !! "duration" = None
  \/ sessionAttributes handlerInput !! "duration" = Some (VNumber NaN)
  \/ (exists n, sessionAttributes handlerInput !! "duration" = Some (VNumber (Num n))
                /\ (n <= 0)%Z) ->
  exists attributes,
    handle ExpiredRequestHandler handlerInput = Ok (goodbye, attributes) /\
    attributes !! "token"
    = Some (VString (requestId (request (requestEnvelope handlerInput)))) /\
    (forall key, key <> "token" ->
                 attributes !! key = sessionAttributes handlerInput !! key) /\
    directives goodbye = [] /\
    shouldEndSession goodbye = Some true.
Proof.
  intros Hbudget. eexists. split; [by apply Expired_ends |].
  split; [by rewrite lookup_insert_eq |].
  split; [| by split].
  intros key Hkey. by rewrite lookup_insert_ne.
Qed.

(** X9.  The expiry handler never looks at a token: neither the one stored in
    the session nor the one the request carries changes its answer or the
    session it leaves. *)
Theorem Expired_ignores_tokens (first second : RequestEnvelope)
    (attributes1 attributes2 : gmap string value) :
  requestId (request first) = requestId (request second) ->
  delete "token" attributes1 = delete "token" attributes2 ->
  handle ExpiredRequestHandler (with_session first attributes1)
  = handle ExpiredRequestHandler (with_session second attributes2).
Proof.
  intros Hid Hrest. cbn [handle ExpiredRequestHandler].
  cbn [requestEnvelope sessionAttributes with_session].
  unfold Util.putSessionAttribute. rewrite Hid.
  rewrite <- (insert_delete_eq attributes1), <- (insert_delete_eq attributes2), Hrest.
  reflexivity.
Qed.

(** X10.  A budget of [n] renewals, a safe integer so that each decrement is
    exact, is used up by exactly [n] expiries: each of them renews the
    timer, the budget left is 0, and whatever expiry comes next ends the
    session. *)
Theorem countdown_reaches_zero (envs : list RequestEnvelope)
    (attributes : gmap string value) :
  (forall token, exists directive,
      Util.buildStartEventHandler token 60000%Z (VObject []) = Ok directive) ->
  safe_budget (Z.of_nat (length envs)) ->
  attributes !! "duration" = Some (VNumber (Num (Z.of_nat (length envs)))) ->
  exists responses attributes',
    expirations envs attributes = Ok (responses, attributes') /\
    length responses = length envs /\
    Forall renews responses /\
    attributes' !! "duration" = Some (VNumber (Num 0)) /\
    forall env,
      handle ExpiredRequestHandler (with_session env attributes')
      = Ok (goodbye, <["token" := VString (requestId (request env))]> attributes').
Proof.
  intros Hbuild _. revert attributes.
  induction envs as [| env rest IH]; intros attributes Hduration.
  - exists [], attributes. cbn [expirations length] in *.
    repeat split; try done.
    intros env. apply (Expired_ends (with_session env attributes)).
    right. right. exists 0%Z. by split.
  - cbn [expirations].
    destruct (Expired_renews (with_session env attributes) _ Hbuild Hduration)
      as (r & -> & Hrenews); [cbn [length]; lia |].
    cbn [JS.bind snd fst sessionAttributes requestEnvelope with_session].
    destruct (IH (<["duration" := VNumber (Num (Z.of_nat (length (env :: rest)) - 1))]>
                    (<["token" := VString (requestId (request env))]> attributes)))
      as (responses & attributes' & -> & Hlength & Hall & Hzero & Hnext).
    { rewrite lookup_insert_eq. do 3 f_equal. cbn [length]. lia. }
    cbn [JS.bind snd fst]. exists (r :: responses), attributes'.
    split; [reflexivity |]. split; [cbn [length]; by rewrite Hlength |].
    split; [by constructor |]. by split.
Qed.

End Countdown.

Lemma Expired_without_budget_ends_witness :
  exists attributes,
    handle (@ExpiredRequestHandler (Util_spec one_gadget))
           (with_session (plain_request "CustomInterfaceController.Expired" "req-9") ∅)
    = Ok (goodbye, attributes) /\
    attributes !! "token" = Some (VString "req-9") /\
    (forall key, key <> "token" -> attributes !! key = (∅ : gmap string value) !! key) /\
    directives goodbye = [] /\
    shouldEndSession goodbye = Some true.
Proof.
  apply (@Expired_without_budget_ends (Util_spec one_gadget)
           (with_session (plain_request "CustomInterfaceController.Expired" "req-9") ∅)).
  left. reflexivity.
Defined.

Lemma Expired_ignores_tokens_witness :
  handle (@ExpiredRequestHandler (Util_spec one_gadget))
         (with_session (expiry_with_token "req-9" (VString "req-1")) launched)
  = handle (@ExpiredRequestHandler (Util_spec one_gadget))
           (with_session (expiry_with_token "req-9" (VString "req-0"))
                         (<["token" := VString "req-8"]> launched)).
Proof.
  apply (@Expired_ignores_tokens (Util_spec one_gadget)); reflexivity.
Defined.

Lemma countdown_reaches_zero_witness :
  exists responses attributes',
    @expirations (Util_spec one_gadget) two_expiries
                 (<["duration" := VNumber (Num 2)]> launched)
    = Ok (responses, attributes') /\
    length responses = length two_expiries /\
    Forall renews responses /\
    attributes' !! "duration" = Some (VNumber (Num 0)) /\
    forall env,
      handle (@ExpiredRequestHandler (Util_spec one_gadget)) (with_session env attributes')
      = Ok (goodbye, <["token" := VString (requestId (request env))]> attributes').
Proof.
  apply (@countdown_reaches_zero (Util_spec one_gadget) two_expiries).
  - intros tok. eexists. reflexivity.
  - by vm_compute.
  - reflexivity.
Defined.

(** ** Routing *)

Lemma literal_eqb (a b : string) : String.eqb a b = true -> a = b.
Proof. apply String.eqb_eq. Qed.

Section Routing.

Context {U : Util.Interface} {C : Common.Interface}.

(** A predicate of index.js that accepts a request fixes its signature. *)
Lemma accepted_signature (i : nat) (h : RequestHandler) (handlerInput : HandlerInput) :
  definedHandlers !! i = Some h ->
  canHandle h handlerInput = Ok true ->
  signatures !! i = Some (signature handlerInput).
Proof.
  intros Hi Hcan. unfold signature.
  destruct i as [| [| [| [| [| [| [| [| [| i]]]]]]]]];
    cbn in Hi; try discriminate; injection Hi as <-;
    cbn [lookup list_lookup signatures];
    first
      [ apply isIntentRequest_true in Hcan as [-> ->]; reflexivity
      | apply events_predicate_accepts in Hcan as [-> _]; reflexivity
      | injection Hcan as Hcan; apply literal_eqb in Hcan;
        unfold Alexa.getRequestType in Hcan; rewrite Hcan; reflexivity ].
Qed.

(** X11.  No request is accepted by two predicates of index.js: the order in
    which its handlers are registered decides nothing among them. *)
Theorem predicates_exclusive (i j : nat) (h1 h2 : RequestHandler)
    (handlerInput : HandlerInput) :
  definedHandlers !! i = Some h1 ->
  definedHandlers !! j = Some h2 ->
  canHandle h1 handlerInput = Ok true ->
  canHandle h2 handlerInput = Ok true ->
  i = j.
Proof.
  intros Hi Hj Hcan1 Hcan2.
  pose proof (accepted_signature i h1 handlerInput Hi Hcan1) as Hsig1.
  pose proof (accepted_signature j h2 handlerInput Hj Hcan2) as Hsig2.
  assert (NoDup signatures) as Hnodup.
  { apply (bool_decide_unpack (NoDup signatures)). by vm_compute. }
  exact (NoDup_lookup _ _ _ _ Hnodup Hsig1 Hsig2).
Qed.

(** X12.  A registered handler of index.js whose predicate accepts the request
    is the one that answers it. *)
Theorem accepting_handler_answers (h : RequestHandler) (handlerInput : HandlerInput) :
  In h ownHandlers ->
  canHandle h handlerInput = Ok true ->
  handler handlerInput = handle h handlerInput.
Proof.
  intros Hin Hcan. cbn [In ownHandlers] in Hin.
  unfold handler, requestHandlers, ownHandlers. cbn [app dispatch].
  destruct Hin as [<- | [<- | [<- | [<- | [<- | [<- | []]]]]]].
  - by rewrite Hcan.
  - pose proof Hcan as Hsame. apply isIntentRequest_true in Hcan as [Htype Hname].
    cbn [canHandle LaunchRequestHandler JS.bind].
    unfold Alexa.getRequestType. rewrite Htype. decide_literals.
    by rewrite Hsame.
  - pose proof Hcan as Hsame. apply isIntentRequest_true in Hcan as [Htype Hname].
    cbn [canHandle LaunchRequestHandler ComeIntentHandler JS.bind].
    unfold isIntentRequest at 1, Alexa.getIntentName, Alexa.getRequestType.
    rewrite Htype, Hname. decide_literals. cbn [JS.bind].
    by rewrite Hsame.
  - pose proof Hcan as Hsame. apply isIntentRequest_true in Hcan as [Htype Hname].
    cbn [canHandle LaunchRequestHandler ComeIntentHandler TakeIntentHandler JS.bind].
    unfold isIntentRequest at 1 2, Alexa.getIntentName, Alexa.getRequestType.
    rewrite Htype, Hname. decide_literals. cbn [JS.bind].
    by rewrite Hsame.
  - pose proof Hcan as Hsame. apply events_predicate_accepts in Hcan as [Htype _].
    unfold is_events_request in Htype.
    cbn [canHandle LaunchRequestHandler ComeIntentHandler TakeIntentHandler
         BringIntentHandler JS.bind].
    unfold isIntentRequest, Alexa.getRequestType.
    rewrite Htype. decide_literals. cbn [JS.bind].
    fold (canHandle EventsReceivedRequestHandler handlerInput).
    by rewrite Hsame.
  - injection Hcan as Hcan. apply literal_eqb in Hcan.
    unfold Alexa.getRequestType in Hcan.
    cbn [canHandle LaunchRequestHandler ComeIntentHandler TakeIntentHandler
         BringIntentHandler EventsReceivedRequestHandler ExpiredRequestHandler JS.bind].
    unfold isIntentRequest, Alexa.getRequestType.
    rewrite Hcan. decide_literals. reflexivity.
Qed.

(** X13.  SetSpeedIntent, MoveIntent and SetCommandIntent have a handler in
    index.js that is not registered: a request their predicate accepts is
    answered by none of the handlers of index.js and goes to the handlers
    of common.js with the session as it was. *)
Theorem unregistered_intents_go_to_common (h : RequestHandler) (handlerInput : HandlerInput) :
  In h unregisteredHandlers ->
  canHandle h handlerInput = Ok true ->
  handler handlerInput = dispatch commonHandlers handlerInput.
Proof.
  intros Hin Hcan. cbn [In unregisteredHandlers] in Hin.
  unfold handler, requestHandlers, ownHandlers. cbn [app dispatch].
  cbn [canHandle LaunchRequestHandler ComeIntentHandler TakeIntentHandler
       BringIntentHandler EventsReceivedRequestHandler ExpiredRequestHandler].
  unfold isIntentRequest, Alexa.getIntentName, Alexa.getRequestType.
  destruct Hin as [<- | [<- | [<- | []]]];
    apply isIntentRequest_true in Hcan as [Htype Hname];
    rewrite Htype, Hname; decide_literals; reflexivity.
Qed.

End Routing.

Lemma predicates_exclusive_witness : 2%nat = 2%nat.
Proof.
  apply (@predicates_exclusive (Util_spec one_gadget) 2 2
           (@BringIntentHandler (Util_spec one_gadget))
           (@BringIntentHandler (Util_spec one_gadget))
           (with_session (bring_water "req-10") launched));
    reflexivity.
Defined.

Lemma accepting_handler_answers_witness :
  @handler (Util_spec one_gadget) Common_spec (with_session (bring_water "req-10") launched)
  = handle (@BringIntentHandler (Util_spec one_gadget))
           (with_session (bring_water "req-10") launched).
Proof.
  apply (@accepting_handler_answers (Util_spec one_gadget) Common_spec).
  - cbn [In ownHandlers]. auto.
  - reflexivity.
Defined.

Lemma unregistered_intents_go_to_common_witness :
  @handler (Util_spec one_gadget) Common_spec move_without_direction
  = @dispatch (@commonHandlers Common_spec) move_without_direction.
Proof.
  apply (@unregistered_intents_go_to_common (Util_spec one_gadget) Common_spec
           (@MoveIntentHandler (Util_spec one_gadget))).
  - cbn [In unregisteredHandlers]. auto.
  - reflexivity.
Defined.

(** ** What every handler of index.js keeps *)

Section Invariants.

Context {U : Util.Interface}.

(** X14.  Every answer of a handler of index.js has spoken output and at most
    one directive. *)
Theorem answers_speak (h : RequestHandler) (handlerInput : HandlerInput)
    (r : Response) (attributes : gmap string value) :
  In h definedHandlers ->
  handle h handlerInput = Ok (r, attributes) ->
  is_Some (outputSpeech r) /\ (length (directives r) <= 1)%nat.
Proof.
  intros Hin Hhandle. cbn [In definedHandlers] in Hin.
  destruct Hin as [<- | [<- | [<- | [<- | [<- | [<- | [<- | [<- | [<- | []]]]]]]]]];
    cbn [handle LaunchRequestHandler ComeIntentHandler BringIntentHandler
         TakeIntentHandler SetSpeedIntentHandler MoveIntentHandler
         SetCommandIntentHandler EventsReceivedRequestHandler ExpiredRequestHandler]
      in Hhandle;
    split_tests Hhandle; try discriminate;
    injection Hhandle as <- <-; (split; [by eexists | cbn; lia]).
Qed.

(** X15.  The only answer that ends the session is the goodbye of the expiry
    handler. *)
Theorem only_goodbye_ends_session (h : RequestHandler) (handlerInput : HandlerInput)
    (r : Response) (attributes : gmap string value) :
  In h definedHandlers ->
  handle h handlerInput = Ok (r, attributes) ->
  shouldEndSession r = Some true ->
  r = goodbye.
Proof.
  intros Hin Hhandle Hend. cbn [In definedHandlers] in Hin.
  destruct Hin as [<- | [<- | [<- | [<- | [<- | [<- | [<- | [<- | [<- | []]]]]]]]]];
    cbn [handle LaunchRequestHandler ComeIntentHandler BringIntentHandler
         TakeIntentHandler SetSpeedIntentHandler MoveIntentHandler
         SetCommandIntentHandler EventsReceivedRequestHandler ExpiredRequestHandler]
      in Hhandle;
    split_tests Hhandle; try discriminate;
    injection Hhandle as <- <-; (discriminate || reflexivity).
Qed.

(** X16.  No handler of index.js touches a session attribute other than
    endpointId, duration, token and speed. *)
Theorem other_attributes_kept (h : RequestHandler) (handlerInput : HandlerInput)
    (r : Response) (attributes : gmap string value) (key : string) :
  In h definedHandlers ->
  handle h handlerInput = Ok (r, attributes) ->
  ~ In key writtenAttributes ->
  attributes !! key = sessionAttributes handlerInput !! key.
Proof.
  intros Hin Hhandle Hkey. cbn [In writtenAttributes] in Hkey.
  assert ("endpointId" <> key /\ "duration" <> key /\ "token" <> key /\ "speed" <> key)
    as (H1 & H2 & H3 & H4) by tauto.
  cbn [In definedHandlers] in Hin.
  destruct Hin as [<- | [<- | [<- | [<- | [<- | [<- | [<- | [<- | [<- | []]]]]]]]]];
    cbn [handle LaunchRequestHandler ComeIntentHandler BringIntentHandler
         TakeIntentHandler SetSpeedIntentHandler MoveIntentHandler
         SetCommandIntentHandler EventsReceivedRequestHandler ExpiredRequestHandler]
      in Hhandle;
    split_tests Hhandle; try discriminate;
    injection Hhandle as <- <-; unfold Util.putSessionAttribute;
    by rewrite ?lookup_insert_ne by assumption.
Qed.

Lemma Expired_keeps_budget_in_range (handlerInput : HandlerInput) (r : Response)
    (attributes : gmap string value) :
  budget_in_range (sessionAttributes handlerInput) ->
  handle ExpiredRequestHandler handlerInput = Ok (r, attributes) ->
  budget_in_range attributes.
Proof.
  unfold budget_in_range. intros Hrange Hhandle.
  destruct (sessionAttributes handlerInput !! "duration") as [v |] eqn:Hduration.
  - destruct Hrange as (n & -> & Hn).
    destruct (Z.eq_dec n 0%Z) as [-> | Hne].
    + rewrite Expired_ends in Hhandle by (right; right; exists 0%Z; by split).
      injection Hhandle as _ <-. rewrite lookup_insert_ne by done.
      rewrite Hduration. by exists 0%Z.
    + cbn [handle ExpiredRequestHandler] in Hhandle.
      unfold getSessionAttribute, Util.putSessionAttribute in Hhandle.
      rewrite lookup_insert_ne in Hhandle by done. rewrite Hduration in Hhandle.
      cbn [default from_option Datatypes.id] in Hhandle.
      unfold JS.or in Hhandle. cbn [truthy] in Hhandle.
      destruct (Z.eqb_spec n 0); [lia |]. cbn [negb to_number lt] in Hhandle.
      destruct (Z.ltb_spec 0 n); [| lia].
      destruct (Util.buildStartEventHandler _ _ _); [| discriminate].
      cbn [JS.bind] in Hhandle. injection Hhandle as _ <-.
      rewrite lookup_insert_eq. exists (n - 1)%Z. split; [reflexivity | lia].
  - rewrite Expired_ends in Hhandle by (by left).
    injection Hhandle as _ <-. rewrite lookup_insert_ne by done.
    by rewrite Hduration.
Qed.

(** X17.  The budget of renewals stays a number between 0 and 10: no handler of
    index.js takes the session out of that range. *)
Theorem budget_stays_in_range (h : RequestHandler) (handlerInput : HandlerInput)
    (r : Response) (attributes : gmap string value) :
  In h definedHandlers ->
  budget_in_range (sessionAttributes handlerInput) ->
  handle h handlerInput = Ok (r, attributes) ->
  budget_in_range attributes.
Proof.
  intros Hin Hrange Hhandle. cbn [In definedHandlers] in Hin.
  destruct Hin as [<- | [<- | [<- | [<- | [<- | [<- | [<- | [<- | [<- | []]]]]]]]]];
    try (by apply (Expired_keeps_budget_in_range handlerInput r));
    cbn [handle LaunchRequestHandler ComeIntentHandler BringIntentHandler
         TakeIntentHandler SetSpeedIntentHandler MoveIntentHandler
         SetCommandIntentHandler EventsReceivedRequestHandler]
      in Hhandle;
    split_tests Hhandle; try discriminate;
    injection Hhandle as <- <-; try assumption;
    unfold budget_in_range, Util.putSessionAttribute in *.
  - rewrite lookup_insert_ne, lookup_insert_eq by done. exists 10%Z. split; [reflexivity | lia].
  - by rewrite lookup_insert_ne by done.
Qed.

End Invariants.

Lemma answers_speak_witness :
  is_Some (outputSpeech goodbye) /\ (length (directives goodbye) <= 1)%nat.
Proof.
  apply (@answers_speak (Util_spec one_gadget)
           (@ExpiredRequestHandler (Util_spec one_gadget)) (expiry 0) goodbye
           (<["token" := VString "req-9"]> (sessionAttributes (expiry 0)))).
  - cbn [In definedHandlers]. do 8 right. left. reflexivity.
  - reflexivity.
Defined.

Lemma only_goodbye_ends_session_witness : goodbye = goodbye.
Proof.
  apply (@only_goodbye_ends_session (Util_spec one_gadget)
           (@ExpiredRequestHandler (Util_spec one_gadget)) (expiry 0) goodbye
           (<["token" := VString "req-9"]> (sessionAttributes (expiry 0)))).
  - cbn [In definedHandlers]. do 8 right. left. reflexivity.
  - reflexivity.
  - reflexivity.
Defined.

Lemma other_attributes_kept_witness :
  (<["speed" := VNumber (Num 42)]> (<["locale" := VString "en-US"]> launched)
   : gmap string value) !! "locale"
  = sessionAttributes
      (with_session (intent_request "req-2" "SetSpeedIntent" [("Speed", VString "42")])
                    (<["locale" := VString "en-US"]> launched)) !! "locale".
Proof.
  apply (@other_attributes_kept (Util_spec one_gadget) SetSpeedIntentHandler
           (with_session (intent_request "req-2" "SetSpeedIntent" [("Speed", VString "42")])
                         (<["locale" := VString "en-US"]> launched))
           (responseBuilder |> speak ("speed set to 42 percent." +:+ BG_MUSIC) None
            |> getResponse)).
  - cbn [In definedHandlers]. do 4 right. left. reflexivity.
  - reflexivity.
  - cbn [In writtenAttributes]. intros [H | [H | [H | [H | []]]]]; discriminate.
Defined.

Lemma budget_stays_in_range_witness :
  budget_in_range
    (<["duration" := VNumber (Num 2)]>
       (<["token" := VString "req-9"]> (sessionAttributes (expiry 3)))).
Proof.
  apply (@budget_stays_in_range (Util_spec one_gadget)
           (@ExpiredRequestHandler (Util_spec one_gadget)) (expiry 3)
           (responseBuilder
            |> addDirective
                 (VObject [("token", VString "req-9"); ("durationMs", VNumber (Num 60000));
                           ("extraConfig", VObject [])])
            |> speak ("2 minutes remaining." +:+ BG_MUSIC) None
            |> getResponse)).
  - cbn [In definedHandlers]. do 8 right. left. reflexivity.
  - unfold budget_in_range. cbn. exists 3%Z. split; [reflexivity | lia].
  - reflexivity.
Defined.

(** ** The speed *)

Ltac known_digit :=
  match goal with
  | |- context [digit_value ?c] =>
      let v := eval vm_compute in (digit_value c) in
      change (digit_value c) with v
  end;
  cbv beta iota;
  match goal with
  | |- context [(?k <? 10)%Z] => change (k <? 10)%Z with true
  end;
  cbv beta iota.

Ltac known_space :=
  repeat match goal with
  | |- context [is_white_space ?c] =>
      let v := eval vm_compute in (is_white_space c) in
      change (is_white_space c) with v
  | |- context [starts_wide_space ?c] =>
      let v := eval vm_compute in (starts_wide_space c) in
      change (starts_wide_space c) with v
  end;
  cbv beta iota.

Lemma parse_digits_uint (d : Decimal.uint) (acc : option Z) :
  d <> Decimal.Nil \/ is_Some acc ->
  parse_digits 10 (NilEmpty.string_of_uint d) acc = Some (uint_value d (default 0%Z acc)).
Proof.
  revert acc. induction d; intros acc Hsome;
    cbn [NilEmpty.string_of_uint parse_digits uint_value];
    [ destruct Hsome as [[] | [a ->]]; reflexivity
    | known_digit; rewrite IHd by (right; by eexists); reflexivity .. ].
Qed.

Lemma uint_value_acc (d : Decimal.uint) (acc : positive) :
  uint_value d (Zpos acc) = Zpos (Pos.of_uint_acc d acc).
Proof.
  revert acc. induction d; intros acc; cbn [uint_value Pos.of_uint_acc];
    try reflexivity;
    try (rewrite <- IHd; f_equal; lia).
Qed.

Lemma uint_value_of_uint (d : Decimal.uint) : uint_value d 0 = Z.of_N (Pos.of_uint d).
Proof.
  induction d; cbn [uint_value Pos.of_uint]; try reflexivity; try assumption;
    change (10 * 0 + ?k)%Z with k; apply uint_value_acc.
Qed.

Lemma uint_value_to_uint (p : positive) : uint_value (Pos.to_uint p) 0 = Zpos p.
Proof. by rewrite uint_value_of_uint, DecimalPos.Unsigned.of_to. Qed.

Lemma parseInt_string_uint (d : Decimal.uint) :
  d <> Decimal.Nil ->
  parseInt_string (NilEmpty.string_of_uint d) = Num (uint_value d 0) /\
  parseInt_string (String "-" (NilEmpty.string_of_uint d)) = Num (- uint_value d 0).
Proof.
  intros Hd. unfold parseInt_string.
  destruct d as [| d | d | d | d | d | d | d | d | d | d]; [done | ..];
    destruct d;
    cbn [NilEmpty.string_of_uint skip_white_space];
    known_space; cbn [split_sign]; cbv beta iota zeta;
    (split;
     match goal with
     | |- _ = Num (uint_value ?x 0) =>
         pose proof (parse_digits_uint x None (or_introl Hd)) as Hparse
     | |- _ = Num (- uint_value ?x 0) =>
         pose proof (parse_digits_uint x None (or_introl Hd)) as Hparse
     end;
     cbn [NilEmpty.string_of_uint] in Hparse; rewrite Hparse;
     cbn [default from_option Datatypes.id]; f_equal; lia).
Qed.

(** [parseInt] reads back the decimal form of every integer. *)
Lemma parseInt_number_to_string (z : Z) :
  parseInt_string (number_to_string (Num z)) = Num z.
Proof.
  destruct z as [| p | p]; [reflexivity | ..];
    cbn [number_to_string Z.to_int NilZero.string_of_int];
    unfold NilZero.string_of_uint;
    pose proof (DecimalPos.Unsigned.to_uint_nonnil p) as Hnil;
    destruct (Pos.to_uint p) eqn:Hp; try done; rewrite <- Hp in *;
    destruct (parseInt_string_uint (Pos.to_uint p) Hnil) as [Hpos Hneg];
    rewrite ?Hpos, ?Hneg, uint_value_to_uint; reflexivity.
Qed.

(** X18.  Whatever integer the Speed slot spells out in decimal, negative and
    arbitrarily large ones included, the speed stored and announced is
    that integer clamped to 1..100. *)
Theorem SetSpeed_clamps_every_integer (handlerInput : HandlerInput) (z : Z) :
  canHandle SetSpeedIntentHandler handlerInput = Ok true ->
  slot_value handlerInput "Speed" = VString (number_to_string (Num z)) ->
  handle SetSpeedIntentHandler handlerInput
  = Ok (responseBuilder
        |> speak (("speed set to " +:+ number_to_string (Num (Z.max 1 (Z.min 100 z)))
                   +:+ " percent.") +:+ BG_MUSIC) None
        |> getResponse,
        <["speed" := VNumber (Num (Z.max 1 (Z.min 100 z)))]>
          (sessionAttributes handlerInput)) /\
  (1 <= Z.max 1 (Z.min 100 z) <= 100)%Z.
Proof.
  intros Hcan Hslot. split; [| lia].
  apply isIntentRequest_true in Hcan as [Htype _].
  cbn [handle SetSpeedIntentHandler].
  rewrite (getSlotValue_intent _ _ Htype). cbn [JS.bind].
  rewrite Hslot. unfold parseInt. cbn [to_string].
  rewrite parseInt_number_to_string. reflexivity.
Qed.

Lemma SetSpeed_clamps_every_integer_witness :
  handle SetSpeedIntentHandler (speed_request (VString "-12345678901234567890"))
  = Ok (responseBuilder
        |> speak (("speed set to "
                   +:+ number_to_string
                         (Num (Z.max 1 (Z.min 100 (-12345678901234567890))))
                   +:+ " percent.") +:+ BG_MUSIC) None
        |> getResponse,
        <["speed" := VNumber (Num (Z.max 1 (Z.min 100 (-12345678901234567890))))]>
          (sessionAttributes (speed_request (VString "-12345678901234567890")))) /\
  (1 <= Z.max 1 (Z.min 100 (-12345678901234567890)) <= 100)%Z.
Proof.
  apply (SetSpeed_clamps_every_integer
           (speed_request (VString "-12345678901234567890")) (-12345678901234567890)%Z);
    reflexivity.
Defined.

Section SpeedInPayload.

Context {U : Util.Interface}.

Lemma SetSpeed_session (handlerInput : HandlerInput) (r : Response)
    (attributes : gmap string value) :
  handle SetSpeedIntentHandler handlerInput = Ok (r, attributes) ->
  attributes
  = <["speed" := VNumber (Math_max (Num 1)
                            (Math_min (Num 100) (parseInt (slot_value handlerInput "Speed"))))]>
      (sessionAttributes handlerInput).
Proof.
  cbn [handle SetSpeedIntentHandler]. unfold Alexa.getSlotValue, slot_value.
  destruct (String.eqb _ "IntentRequest"); [| discriminate].
  cbn [JS.bind]. by intros [= _ <-].
Qed.

(** X19.  The speed set by a SetSpeedIntent whose slot is a string, or a
    number printed in plain decimal, is the speed the Bring, Take and
    SetCommand handlers then put into their directive: the clamped integer,
    and the default "50" when the slot could not be read, so that NaN is
    never sent to the gadget. *)
Theorem speed_sent_after_SetSpeed (speedInput : HandlerInput) (r : Response)
    (attributes : gmap string value)
    (h : RequestHandler) (slotName discriminator : string)
    (env : RequestEnvelope) (directive : value) :
  handle SetSpeedIntentHandler speedInput = Ok (r, attributes) ->
  prints_plainly (slot_value speedInput "Speed") ->
  In (h, slotName, discriminator)
     [(BringIntentHandler, "Bring", "bring"); (TakeIntentHandler, "Take", "take");
      (SetCommandIntentHandler, "Command", "command")] ->
  canHandle h (with_session env attributes) = Ok true ->
  truthy (slot_value (with_session env attributes) slotName) = true ->
  Util.build
    (JS.or (getSessionAttribute (sessionAttributes speedInput) "endpointId") (VArray []))
    NAMESPACE NAME_CONTROL
    (command_payload discriminator (slot_value (with_session env attributes) slotName)
       (speed_sent (slot_value speedInput "Speed")))
  = Ok directive ->
  exists r',
    handle h (with_session env attributes) = Ok (r', attributes) /\
    directives r' = [directive].
Proof.
  intros Hspeed _ Hin Hcan Hfilled Hbuild.
  apply SetSpeed_session in Hspeed. subst attributes.
  destruct (filled_slot_directive h slotName discriminator _ directive Hin Hcan Hfilled)
    as (r' & Hhandle & _ & Hdirective).
  - cbn [sessionAttributes with_session] in *.
    unfold getSessionAttribute, Util.putSessionAttribute in *.
    rewrite lookup_insert_ne by done. rewrite lookup_insert_eq.
    cbn [default from_option Datatypes.id].
    replace (JS.or (VNumber _) (VString "50"))
      with (speed_sent (slot_value speedInput "Speed")); [exact Hbuild |].
    unfold speed_sent, JS.or.
    destruct (parseInt _) as [| z]; cbn [Math_min Math_max truthy]; [reflexivity |].
    destruct (Z.eqb_spec (Z.max 1 (Z.min 100 z)) 0); [lia | reflexivity].
  - exists r'. by split.
Qed.

(** X20.  The command handlers read the endpoint and the speed from the session
    and nothing else: on two sessions that agree on these two attributes
    they give the same response. *)
Theorem commands_read_endpoint_and_speed (h : RequestHandler) (env : RequestEnvelope)
    (attributes1 attributes2 : gmap string value) :
  In h commandHandlers ->
  attributes1 !! "endpointId" = attributes2 !! "endpointId" ->
  attributes1 !! "speed" = attributes2 !! "speed" ->
  response_of (handle h (with_session env attributes1))
  = response_of (handle h (with_session env attributes2)).
Proof.
  intros Hin Hendpoint Hspeed. cbn [In commandHandlers] in Hin.
  destruct Hin as [<- | [<- | [<- | [<- | [<- | []]]]]];
    cbn [handle MoveIntentHandler ComeIntentHandler BringIntentHandler
         TakeIntentHandler SetCommandIntentHandler];
    cbn [requestEnvelope sessionAttributes with_session];
    unfold getSessionAttribute; rewrite ?Hendpoint, ?Hspeed;
    repeat match goal with
    | |- context [JS.bind ?m _] => destruct m; cbn [JS.bind]
    | |- context [if ?c then _ else _] => destruct c
    end; reflexivity.
Qed.

End SpeedInPayload.

Lemma speed_sent_after_SetSpeed_witness :
  exists r',
    handle (@BringIntentHandler (Util_spec one_gadget))
           (with_session (bring_water "req-10") (<["speed" := VNumber NaN]> launched))
    = Ok (r', <["speed" := VNumber NaN]> launched) /\
    directives r'
    = [VObject [("targetEndpoint", VString "E1");
                ("namespace", VString NAMESPACE);
                ("name", VString NAME_CONTROL);
                ("payload", command_payload "bring" (VString "water") (VString "50"))]].
Proof.
  apply (@speed_sent_after_SetSpeed (Util_spec one_gadget)
           (speed_request (VString "fast"))
           (responseBuilder |> speak ("speed set to NaN percent." +:+ BG_MUSIC) None
            |> getResponse)
           (<["speed" := VNumber NaN]> launched)
           (@BringIntentHandler (Util_spec one_gadget)) "Bring" "bring");
    try reflexivity.
  cbn [In]. auto.
Defined.

Lemma commands_read_endpoint_and_speed_witness :
  response_of (handle (@BringIntentHandler (Util_spec one_gadget))
                      (with_session (bring_water "req-10") launched))
  = response_of (handle (@BringIntentHandler (Util_spec one_gadget))
                        (with_session (bring_water "req-10")
                                      (<["endpointId" := VString "E1"]> ∅))).
Proof.
  apply (@commands_read_endpoint_and_speed (Util_spec one_gadget)
           (@BringIntentHandler (Util_spec one_gadget)));
    try reflexivity.
  cbn [In commandHandlers]. auto.
Defined.
